(** * hf-for-legal: the [DatasetFormatter] class of [hf_for_legal/datasets.py]

    A shallow embedding of [src/hf_for_legal/datasets.py] and of the parts
    of the Python runtime and of the libraries it calls ([str], [hashlib],
    [uuid], [os.urandom], [numpy], [datasets.Dataset]), followed by the
    properties of the formatter's operations.

    Conventions.
    - A Python [str] value is a list of code points ([N]); a [bytes] value
      is a list of octets ([N] below 256).  Column names, which are only
      compared and spliced into messages, are Rocq strings.
    - A dataset row is a finite map from column names to values.
    - A method of the class is a computation in the monad [M]: it reads
      and may reassign [self.dataset], may draw from the operating
      system's random source, and either returns or raises. *)

From Stdlib Require Import NArith ZArith List String Ascii Bool Lia Floats.
From stdpp Require Import base option list strings pretty gmap.

Local Open Scope N_scope.
Set Warnings "-inexact-float".

(** ** Exceptions and results *)

Inductive exn : Type :=
  | TypeError (msg : string)
  | ValueError (msg : string)
  | KeyError (key : string)
  | AttributeError (msg : string)
  | UnicodeEncodeError (position : nat).

Inductive result (A : Type) : Type :=
  | Ok (a : A)
  | Raise (e : exn).
Arguments Ok {A} a.
Arguments Raise {A} e.

Definition rbind {A B} (r : result A) (k : A -> result B) : result B :=
  match r with
  | Ok a => k a
  | Raise e => Raise e
  end.

(** ** Python text: code points, [str.encode], [str.lower], [str.strip] *)

Abbreviation pystr := (list N).
Abbreviation pybytes := (list N).

Definition codepoints (s : string) : pystr :=
  List.map (fun a => N_of_ascii a) (list_ascii_of_string s).

Module codec.

(** [str.encode()] with the default arguments: UTF-8, [errors='strict'].
    A surrogate code point cannot be encoded and raises. *)
Definition is_scalar (c : N) : bool :=
  (c <? 0xD800) || ((0xDFFF <? c) && (c <=? 0x10FFFF)).

Definition utf8_char (c : N) : pybytes :=
  if c <? 0x80 then [c]
  else if c <? 0x800 then
    [N.lor 0xC0 (N.shiftr c 6); N.lor 0x80 (N.land c 0x3F)]
  else if c <? 0x10000 then
    [N.lor 0xE0 (N.shiftr c 12);
     N.lor 0x80 (N.land (N.shiftr c 6) 0x3F);
     N.lor 0x80 (N.land c 0x3F)]
  else
    [N.lor 0xF0 (N.shiftr c 18);
     N.lor 0x80 (N.land (N.shiftr c 12) 0x3F);
     N.lor 0x80 (N.land (N.shiftr c 6) 0x3F);
     N.lor 0x80 (N.land c 0x3F)].

Fixpoint encode_from (pos : nat) (s : pystr) : result pybytes :=
  match s with
  | [] => Ok []
  | c :: s' =>
      if is_scalar c
      then rbind (encode_from (S pos) s') (fun bs => Ok (utf8_char c ++ bs))
      else Raise (UnicodeEncodeError pos)
  end.

Definition encode (s : pystr) : result pybytes := encode_from 0 s.

End codec.

(** ** [hashlib.sha256] (FIPS 180-4), on octet lists *)

Module hashlib.

Definition w32 (x : N) : N := x mod 2 ^ 32.
Definition add32 (x y : N) : N := w32 (x + y).
Definition rotr (n x : N) : N :=
  N.lor (N.shiftr x n) (w32 (N.shiftl x (32 - n))).

Definition Ch (x y z : N) : N := N.lxor (N.land x y) (N.ldiff z x).
Definition Maj (x y z : N) : N :=
  N.lxor (N.lxor (N.land x y) (N.land x z)) (N.land y z).
Definition bsig0 (x : N) : N := N.lxor (N.lxor (rotr 2 x) (rotr 13 x)) (rotr 22 x).
Definition bsig1 (x : N) : N := N.lxor (N.lxor (rotr 6 x) (rotr 11 x)) (rotr 25 x).
Definition ssig0 (x : N) : N := N.lxor (N.lxor (rotr 7 x) (rotr 18 x)) (N.shiftr x 3).
Definition ssig1 (x : N) : N := N.lxor (N.lxor (rotr 17 x) (rotr 19 x)) (N.shiftr x 10).

(** The constants are the leading fractional bits of the square and cube
    roots of the first primes; they are computed rather than tabulated. *)
Definition is_prime (n : N) : bool :=
  (2 <=? n) &&
  forallb (fun d => negb (n mod d =? 0))
          (List.map N.of_nat (seq 2 (N.to_nat n - 2))).

Definition primes64 : list N :=
  Eval vm_compute in List.filter is_prime (List.map N.of_nat (seq 2 310)).

Fixpoint icbrt_bits (bits : nat) (n r : N) : N :=
  match bits with
  | O => r
  | S b =>
      let r' := r + 2 ^ N.of_nat b in
      icbrt_bits b n (if r' * r' * r' <=? n then r' else r)
  end.

Definition K : list N :=
  Eval vm_compute in
    List.map (fun p => w32 (icbrt_bits 36 (p * 2 ^ 96) 0)) primes64.

Definition H0 : list N :=
  Eval vm_compute in
    List.map (fun p => w32 (N.sqrt (p * 2 ^ 64))) (firstn 8 primes64).

Definition be_bytes (width : nat) (x : N) : pybytes :=
  List.map (fun i => N.land (N.shiftr x (8 * N.of_nat i)) 0xFF) (rev (seq 0 width)).

Definition from_be (bs : pybytes) : N :=
  fold_left (fun acc b => N.lor (N.shiftl acc 8) b) bs 0.

Definition pad (msg : pybytes) : pybytes :=
  let len := N.of_nat (length msg) in
  let zeros := N.to_nat ((119 - len mod 64) mod 64) in
  msg ++ [0x80] ++ repeat 0 zeros ++ be_bytes 8 (8 * len).

Fixpoint chunks (fuel size : nat) (bs : pybytes) : list pybytes :=
  match fuel with
  | O => []
  | S f =>
      match bs with
      | [] => []
      | _ => firstn size bs :: chunks f size (skipn size bs)
      end
  end.

Definition schedule (block : pybytes) : list N :=
  fold_left
    (fun w t =>
       w ++ [add32 (add32 (ssig1 (nth (t - 2) w 0)) (nth (t - 7) w 0))
                   (add32 (ssig0 (nth (t - 15) w 0)) (nth (t - 16) w 0))])
    (seq 16 48)
    (List.map from_be (chunks 16 4 block)).

Definition round (st : list N) (kw : N * N) : list N :=
  match st with
  | [a; b; c; d; e; f; g; h] =>
      let t1 := add32 (add32 (add32 h (bsig1 e)) (add32 (Ch e f g) (fst kw))) (snd kw) in
      let t2 := add32 (bsig0 a) (Maj a b c) in
      [add32 t1 t2; a; b; c; add32 d t1; e; f; g]
  | _ => st
  end.

Definition compress (st : list N) (block : pybytes) : list N :=
  List.map (fun p => add32 (fst p) (snd p))
           (combine st (fold_left round (combine K (schedule block)) st)).

Definition digest (msg : pybytes) : pybytes :=
  let padded := pad msg in
  flat_map (be_bytes 4)
           (fold_left compress (chunks (length padded) 64 padded) H0).

Definition hex_char (d : N) : N := if d <? 10 then 48 + d else 87 + d.

Definition hex_of_bytes (bs : pybytes) : pystr :=
  flat_map (fun b => [hex_char (N.shiftr b 4); hex_char (N.land b 0xF)]) bs.

(** [hashlib.sha256(data).hexdigest()] *)
Definition sha256_hexdigest (data : pybytes) : pystr :=
  hex_of_bytes (digest data).

End hashlib.

(** ** Values, rows and datasets *)

(** The values a dataset cell can hold, as Python objects. *)
#[warnings="-register-all"]
Inductive value : Type :=
  | VNone
  | VBool (b : bool)
  | VInt (z : Z)
  | VFloat (f : float)
  | VStr (s : pystr)
  | VList (items : list value).

Definition type_name (v : value) : string :=
  match v with
  | VNone => "NoneType"
  | VBool _ => "bool"
  | VInt _ => "int"
  | VFloat _ => "float"
  | VStr _ => "str"
  | VList _ => "list"
  end.

Definition is_str (v : value) : bool :=
  match v with VStr _ => true | _ => false end.

(** A row, as the dict that [Dataset.map] hands to its function. *)
Abbreviation row := (gmap string value).

(** [datasets.Dataset]: a schema (the column names, in order) and the
    rows.  Arrow typing of the columns is not modelled. *)
Record Dataset : Type := mkDataset {
  column_names : list string;
  rows : list row
}.

(** The state of a [DatasetFormatter] object: its one attribute. *)
Record DatasetFormatter : Type := mkFormatter {
  dataset : Dataset
}.

(** ** The operating system's random source *)

Module os.

(** The octets the source will deliver, and how many were taken. *)
Record entropy : Type := mkEntropy {
  octet : nat -> N;
  consumed : nat
}.

(** [os.urandom(n)] *)
Definition urandom (n : nat) (e : entropy) : pybytes * entropy :=
  (List.map (fun i => octet e (consumed e + i)%nat mod 256) (seq 0 n),
   {| octet := octet e; consumed := (consumed e + n)%nat |}).

End os.

(** ** The monad of method bodies *)

Record world : Type := mkWorld {
  self : DatasetFormatter;
  random : os.entropy
}.

Definition M (A : Type) : Type := world -> result A * world.

Definition ret {A} (a : A) : M A := fun w => (Ok a, w).
Definition raise {A} (e : exn) : M A := fun w => (Raise e, w).
Definition bind {A B} (c : M A) (k : A -> M B) : M B :=
  fun w =>
    match c w with
    | (Ok a, w') => k a w'
    | (Raise e, w') => (Raise e, w')
    end.
Definition lift {A} (r : result A) : M A := fun w => (r, w).

Notation "'let*' x ':=' c 'in' k" := (bind c (fun x => k))
  (at level 10, x name, c at level 100, k at level 200).

(** [self.dataset] and [self.dataset = d] *)
Definition get_dataset : M Dataset := fun w => (Ok (dataset (self w)), w).
Definition set_dataset (d : Dataset) : M unit :=
  fun w => (Ok tt, {| self := {| dataset := d |}; random := random w |}).

(** [x[key]] on a dict *)
Definition getitem (x : row) (key : string) : M value :=
  match x !! key with
  | Some v => ret v
  | None => raise (KeyError key)
  end.

Fixpoint for_each {A B} (f : A -> M B) (l : list A) : M (list B) :=
  match l with
  | [] => ret []
  | a :: l' => let* b := f a in let* bs := for_each f l' in ret (b :: bs)
  end.

(** ** [uuid.uuid4] and [str(UUID)] *)

Module uuidlib.

(** [UUID(bytes=b, version=4).int]: the variant and version bits are
    forced, the other 122 bits are those of [b]. *)
Definition UUID (bytes : pybytes) : N :=
  let int := hashlib.from_be bytes in
  let int := N.ldiff int (N.shiftl 0xc000 48) in
  let int := N.lor int (N.shiftl 0x8000 48) in
  let int := N.ldiff int (N.shiftl 0xf000 64) in
  N.lor int (N.shiftl 4 76).

Definition uuid4 : M N :=
  fun w =>
    let (b, e) := os.urandom 16 (random w) in
    (Ok (UUID b), {| self := self w; random := e |}).

(** The number of hexadecimal digits of [n] (one for zero). *)
Definition hex_width (n : N) : nat := N.to_nat (N.log2 n / 4 + 1).

(** ['%032x' % n] *)
Definition format_032x (n : N) : pystr :=
  List.map (fun i => hashlib.hex_char (N.land (N.shiftr n (4 * N.of_nat i)) 0xF))
           (rev (seq 0 (Nat.max 32 (hex_width n)))).

Definition slice (a b : nat) (s : pystr) : pystr := take (b - a) (drop a s).

(** [UUID.__str__] *)
Definition str (int : N) : pystr :=
  let hex := format_032x int in
  slice 0 8 hex ++ [45] ++ slice 8 12 hex ++ [45] ++ slice 12 16 hex ++ [45]
    ++ slice 16 20 hex ++ [45] ++ drop 20 hex.

(** The canonical textual form: 8-4-4-4-12 lower-case hexadecimal digits. *)
Definition is_hex (c : N) : bool :=
  ((48 <=? c) && (c <=? 57)) || ((97 <=? c) && (c <=? 102)).

Definition canonical (s : pystr) : bool :=
  (length s =? 36)%nat &&
  forallb (fun ic : nat * N =>
             if (fst ic =? 8)%nat || (fst ic =? 13)%nat
                || (fst ic =? 18)%nat || (fst ic =? 23)%nat
             then snd ic =? 45
             else is_hex (snd ic))
          (combine (seq 0 (length s)) s).

End uuidlib.

(** ** [numpy]: array conversion and the three reductions *)

Module numpy.

Local Open Scope float_scope.

Definition float_of_Z (z : Z) : float :=
  SF2Prim (binary_normalize prec emax z 0 false).

Definition list_nat_eqb (a b : list nat) : bool := bool_decide (a = b).

(** The shape [np.array] finds for one element of the outer list; [None]
    when the nesting is ragged. *)
Fixpoint shape (v : value) : option (list nat) :=
  match v with
  | VList items =>
      let fix same (s : list nat) (l : list value) : bool :=
        match l with
        | [] => true
        | x :: l' =>
            match shape x with
            | Some s' => list_nat_eqb s s' && same s l'
            | None => false
            end
        end in
      match items with
      | [] => Some [0%nat]
      | x :: l' =>
          match shape x with
          | Some s => if same s l' then Some (length items :: s) else None
          | None => None
          end
      end
  | _ => Some []
  end.

Fixpoint leaves (v : value) : list value :=
  match v with
  | VList items => flat_map leaves items
  | _ => [v]
  end.

Definition as_float (v : value) : option float :=
  match v with
  | VBool b => Some (if b then 1 else 0)
  | VInt z => Some (float_of_Z z)
  | VFloat f => Some f
  | _ => None
  end.

(** An array of a numeric dtype, flattened and seen as float64, which is
    how the three reductions below read it. *)
Inductive ndarray : Type :=
  | Numeric (data : list float)
  | Object (data : list value).

(** [np.array(column)] *)
Definition array (column : list value) : result ndarray :=
  match shape (VList column) with
  | None =>
      Raise (ValueError "setting an array element with a sequence. The requested array has an inhomogeneous shape.")
  | Some _ =>
      let cells := flat_map leaves column in
      match mapM (M:=option) as_float cells with
      | Some data => Ok (Numeric data)
      | None => Ok (Object cells)
      end
  end.

(** [add.reduce]: the elements are accumulated from left to right.  (The
    library sums long arrays by blocks; the two agree whenever the
    partial sums are exactly representable.) *)
Definition sum (data : list float) : float := fold_left PrimFloat.add data 0.

Definition count (data : list float) : float :=
  float_of_Z (Z.of_nat (length data)).

Fixpoint insert_sorted (x : float) (l : list float) : list float :=
  match l with
  | [] => [x]
  | y :: l' => if x <=? y then x :: l else y :: insert_sorted x l'
  end.

Definition sort (data : list float) : list float :=
  fold_right insert_sorted [] data.

Definition reduce (f : list float -> float) (a : ndarray) : result float :=
  match a with
  | Numeric data => Ok (f data)
  | Object _ => Raise (TypeError "unsupported operand type(s) for the reduction")
  end.

Definition mean_f (data : list float) : float := sum data / count data.

Definition median_f (data : list float) : float :=
  if existsb PrimFloat.is_nan data then nan
  else
    let s := sort data in
    let n := length data in
    if Nat.even n
    then mean_f (firstn 2 (skipn (n / 2 - 1) s))
    else mean_f (firstn 1 (skipn (n / 2) s)).

(** The default [ddof=0]: the divisor is the number of elements. *)
Definition std_f (data : list float) : float :=
  let arrmean := sum data / count data in
  let x := List.map (fun a => a - arrmean) data in
  let x := List.map (fun d => d * d) x in
  PrimFloat.sqrt (sum x / count data).

Definition mean := reduce mean_f.
Definition median := reduce median_f.
Definition std := reduce std_f.

End numpy.

(** ** [str.lower] and [str.strip] *)

Module unicode.

(** The part of the Unicode character database that [str.lower] reads:
    the full lower-case mapping of a code point and the two properties
    behind the final-sigma rule. *)
Record database : Type := mkDatabase {
  tolower_full : N -> list N;
  is_cased : N -> bool;
  is_case_ignorable : N -> bool
}.

(** [Py_UNICODE_ISSPACE] *)
Definition is_space (c : N) : bool :=
  ((0x09 <=? c) && (c <=? 0x0D)) || ((0x1C <=? c) && (c <=? 0x20))
  || (c =? 0x85) || (c =? 0xA0) || (c =? 0x1680)
  || ((0x2000 <=? c) && (c <=? 0x200A))
  || (c =? 0x2028) || (c =? 0x2029) || (c =? 0x202F) || (c =? 0x205F)
  || (c =? 0x3000).

Fixpoint lstrip (s : pystr) : pystr :=
  match s with
  | [] => []
  | c :: s' => if is_space c then lstrip s' else s
  end.

Fixpoint rstrip (s : pystr) : pystr :=
  match s with
  | [] => []
  | c :: s' =>
      match rstrip s' with
      | [] => if is_space c then [] else [c]
      | kept => c :: kept
      end
  end.

(** [s.strip()] *)
Definition strip (s : pystr) : pystr := rstrip (lstrip s).

Definition capital_sigma : N := 0x3A3.
Definition small_sigma : N := 0x3C3.
Definition small_final_sigma : N := 0x3C2.

Section Lower.
Variable db : database.

Fixpoint skip_ignorable (s : pystr) : pystr :=
  match s with
  | [] => []
  | c :: s' => if is_case_ignorable db c then skip_ignorable s' else s
  end.

(** [handle_capital_sigma]: [before] is the text to the left of the
    sigma, nearest code point first; [after] is the text to its right. *)
Definition handle_capital_sigma (before after : pystr) : N :=
  let final_sigma :=
    match skip_ignorable before with
    | [] => false
    | c :: _ => is_cased db c
    end in
  let final_sigma :=
    final_sigma &&
    match skip_ignorable after with
    | [] => true
    | c :: _ => negb (is_cased db c)
    end in
  if final_sigma then small_final_sigma else small_sigma.

Fixpoint do_lower (before s : pystr) : pystr :=
  match s with
  | [] => []
  | c :: after =>
      (if c =? capital_sigma
       then [handle_capital_sigma before after]
       else tolower_full db c)
      ++ do_lower (c :: before) after
  end.

(** [s.lower()] *)
Definition lower (s : pystr) : pystr := do_lower [] s.
End Lower.

(** The database restricted to ASCII letters. *)
Definition ascii_letters : database :=
  {| tolower_full := fun c => if (65 <=? c) && (c <=? 90) then [c + 32] else [c];
     is_cased := fun c => ((65 <=? c) && (c <=? 90)) || ((97 <=? c) && (c <=? 122));
     is_case_ignorable := fun c => (c =? 39) || (c =? 46) || (c =? 58) || (c =? 94)
                                   || (c =? 96) |}.

End unicode.

(** ** [datasets.Dataset]: the methods the formatter calls *)

Module datasets.

(** The columns a mapped function adds: the keys of its first output that
    the schema does not have yet. *)
Definition new_columns (names : list string) (outs : list row) : list string :=
  match outs with
  | [] => []
  | out :: _ =>
      List.filter (fun k => bool_decide (k ∉ names)) (List.map fst (map_to_list out))
  end.

(** [Dataset.map(function)] for a function that returns a dict: each row
    is updated with the returned dict, in row order.  A dataset without
    rows is returned as it is. *)
Definition map (function : row -> M row) (ds : Dataset) : M Dataset :=
  match rows ds with
  | [] => ret ds
  | _ =>
      let* outs := for_each function (rows ds) in
      ret {| column_names := column_names ds ++ new_columns (column_names ds) outs;
             rows := zip_with (fun out x => out ∪ x) outs (rows ds) |}
  end.

(** [Dataset.select(indices)] *)
Definition select (indices : list nat) (ds : Dataset) : Dataset :=
  {| column_names := column_names ds;
     rows := omap (fun i => rows ds !! i) indices |}.

(** [Dataset.filter(function)]: the function is evaluated on every row
    and the rows whose result is true are selected by index. *)
Definition filter (function : row -> result bool) (ds : Dataset) : M Dataset :=
  let* mask := for_each (fun x => lift (function x)) (rows ds) in
  let indices :=
    List.map fst (List.filter snd (combine (seq 0 (length mask)) mask)) in
  ret (select indices ds).

Definition rename_key (old new : string) (x : row) : row :=
  match x !! old with
  | Some v => <[new := v]> (delete old x)
  | None => x
  end.

(** [Dataset.rename_column(original_column_name, new_column_name)]; the
    library's messages are abridged. *)
Definition rename_column (original_column_name new_column_name : string)
    (ds : Dataset) : M Dataset :=
  if decide (original_column_name ∉ column_names ds) then
    raise (ValueError ("Original column name " +:+ original_column_name
                       +:+ " not in the dataset."))
  else if decide (new_column_name ∈ column_names ds) then
    raise (ValueError ("New column name " +:+ new_column_name
                       +:+ " already in the dataset."))
  else if decide (new_column_name = EmptyString) then
    raise (ValueError "New column name is empty.")
  else
    ret {| column_names :=
             List.map (fun c => if decide (c = original_column_name)
                                then new_column_name else c)
                      (column_names ds);
           rows := List.map (rename_key original_column_name new_column_name)
                            (rows ds) |}.

(** [Dataset.remove_columns(names)] *)
Definition remove_columns (names : list string) (ds : Dataset) : M Dataset :=
  match List.filter (fun c => bool_decide (c ∉ column_names ds)) names with
  | missing :: _ =>
      raise (ValueError ("Column name " +:+ missing +:+ " not in the dataset."))
  | [] =>
      ret {| column_names :=
               List.filter (fun c => bool_decide (c ∉ names)) (column_names ds);
             rows := List.map (fun x => foldr delete x names) (rows ds) |}
  end.

(** [ds[name]] for a column name: the column as a list. *)
Definition column (name : string) (ds : Dataset) : M (list value) :=
  for_each (fun x => getitem x name) (rows ds).

End datasets.

(** ** The decorators *)

(** Modelled from the spec: [hf_for_legal._decorators] is not among the
    sources.  The specification describes [timer] and [memory] as
    "diagnostic instrumentation, not core logic" (execution-time
    measurement and memory-usage reporting): the decorated method runs
    unchanged and its outcome is passed through.  The printed report is
    not part of the state. *)
Definition timer {A} (print_time : bool) (method : M A) : M A := method.

(** Modelled from the spec: see [timer]. *)
Definition memory {A} (print_report : bool) (method : M A) : M A := method.

(** ** The class [DatasetFormatter] *)

(** What the constructor may be handed. *)
Inductive pyobject : Type :=
  | ADataset (d : Dataset)
  | AValue (v : value).

Section Formatter.

(** [repr] of a value other than a [str] ([str] falls back on it), and
    the character database of the interpreter. *)
Variable repr : value -> pystr.
Variable ucd : unicode.database.

(** [str(v)] *)
Definition str (v : value) : pystr :=
  match v with
  | VStr s => s
  | _ => repr v
  end.

Definition __init__ (obj : pyobject) : result DatasetFormatter :=
  match obj with
  | ADataset d => Ok {| dataset := d |}
  | AValue _ => Raise (TypeError "Expected a Hugging Face `datasets.Dataset` object.")
  end.

Definition missing_column (column_name : string) : exn :=
  ValueError ("Column '" +:+ column_name +:+ "' does not exist in the dataset.").

Definition generate_hash (text : value) : result pystr :=
  rbind (codec.encode (str text))
        (fun data => Ok (hashlib.sha256_hexdigest data)).

Definition hash (column_name hash_column_name : string) : M Dataset :=
  memory true (timer true (
    let* ds := get_dataset in
    if decide (column_name ∉ column_names ds) then
      raise (missing_column column_name)
    else
      datasets.map
        (fun x =>
           let* text := getitem x column_name in
           let* digest := lift (generate_hash text) in
           ret {[ hash_column_name := VStr digest ]})
        ds)).

Definition uuid (uuid_column_name : string) : M Dataset :=
  memory true (timer true (
    let* ds := get_dataset in
    datasets.map
      (fun x =>
         let* u := uuidlib.uuid4 in
         ret {[ uuid_column_name := VStr (uuidlib.str u) ]})
      ds)).

Definition normalize (text : value) : result pystr :=
  match text with
  | VStr s => Ok (unicode.strip (unicode.lower ucd s))
  | _ => Raise (AttributeError ("'" +:+ type_name text
                                +:+ "' object has no attribute 'lower'"))
  end.

Definition normalize_text (column_name : string)
    (normalized_column_name : option string) : M Dataset :=
  memory true (timer true (
    let* ds := get_dataset in
    if decide (column_name ∉ column_names ds) then
      raise (missing_column column_name)
    else
      let new_column_name :=
        match normalized_column_name with
        | Some name => if decide (name = EmptyString) then column_name else name
        | None => column_name
        end in
      datasets.map
        (fun x =>
           let* text := getitem x column_name in
           let* normalized := lift (normalize text) in
           ret {[ new_column_name := VStr normalized ]})
        ds)).

Definition filter_rows (condition : row -> result bool) : M Dataset :=
  memory true (timer true (
    let* ds := get_dataset in
    datasets.filter condition ds)).

Definition rename_column (old_column_name new_column_name : string) : M Dataset :=
  let* ds := get_dataset in
  if decide (old_column_name ∉ column_names ds) then
    raise (missing_column old_column_name)
  else
    datasets.rename_column old_column_name new_column_name ds.

Definition drop_column (column_name : string) : M Dataset :=
  let* ds := get_dataset in
  if decide (column_name ∉ column_names ds) then
    raise (missing_column column_name)
  else
    datasets.remove_columns [column_name] ds.

Definition add_constant_column (column_name : string) (constant_value : value)
    : M Dataset :=
  let* ds := get_dataset in
  datasets.map (fun x => ret {[ column_name := constant_value ]}) ds.

Definition convert_column_type (column_name : string)
    (new_type : value -> result value) : M Dataset :=
  memory true (timer true (
    let* ds := get_dataset in
    if decide (column_name ∉ column_names ds) then
      raise (missing_column column_name)
    else
      datasets.map
        (fun x =>
           let* v := getitem x column_name in
           let* converted := lift (new_type v) in
           ret {[ column_name := converted ]})
        ds)).

Definition fill_missing (column_name : string) (fill_value : value) : M Dataset :=
  memory true (timer true (
    let* ds := get_dataset in
    if decide (column_name ∉ column_names ds) then
      raise (missing_column column_name)
    else
      datasets.map
        (fun x =>
           let* v := getitem x column_name in
           ret {[ column_name :=
                    match v with VNone => fill_value | _ => v end ]})
        ds)).

Definition compute_summary (column_name : string) : M (gmap string float) :=
  memory true (timer true (
    let* ds := get_dataset in
    if decide (column_name ∉ column_names ds) then
      raise (missing_column column_name)
    else
      let* column := datasets.column column_name ds in
      let* column_data := lift (numpy.array column) in
      let* mean := lift (numpy.mean column_data) in
      let* median := lift (numpy.median column_data) in
      let* std := lift (numpy.std column_data) in
      ret (<["mean" := mean]> (<["median" := median]> (<["std" := std]> ∅))))).

Definition __call__ (hash_column_name uuid_column_name : string) : M Dataset :=
  memory true (timer true (
    let* hashed := hash "document" hash_column_name in
    let* _ := set_dataset hashed in
    let* identified := uuid uuid_column_name in
    let* _ := set_dataset identified in
    get_dataset)).

End Formatter.

(** ** Auxiliary notions used in the statements *)

(** The outcome of applying a fallible function to every element in order:
    the first exception, or all the results. *)
Fixpoint collect {A B} (g : A -> result B) (l : list A) : result (list B) :=
  match l with
  | [] => Ok []
  | a :: l' =>
      rbind (g a) (fun b => rbind (collect g l') (fun bs => Ok (b :: bs)))
  end.

(** Writing column [target] from a row-wise computation [g]: what
    [Dataset.map] does with a function that returns the one-entry dict
    [{target: g(x)}]. *)
Definition set_column (target : string) (g : row -> result value) (ds : Dataset)
    : result Dataset :=
  match rows ds with
  | [] => Ok ds
  | _ =>
      rbind (collect g (rows ds)) (fun vs =>
        Ok {| column_names :=
                column_names ds ++
                (if decide (target ∈ column_names ds) then [] else [target]);
              rows := zip_with (fun v x => <[target := v]> x) vs (rows ds) |})
  end.

(** The invariant of a [Dataset] object: every row has exactly the
    columns of the schema, and the strings it holds are sequences of
    Unicode scalar values (they are stored as UTF-8 in Arrow buffers). *)
Definition text_ok (v : value) : Prop :=
  match v with
  | VStr s => forallb codec.is_scalar s = true
  | _ => True
  end.

Definition is_dataset (ds : Dataset) : Prop :=
  Forall (fun x : row =>
            dom x = list_to_set (column_names ds) /\
            map_Forall (fun _ v => text_ok v) x)
         (rows ds).

(** A formatter that wraps [ds], with the random source [e]. *)
Definition wrapping (ds : Dataset) (e : os.entropy) : world :=
  {| self := {| dataset := ds |}; random := e |}.

(** Reading column [source] of a row and passing the value to [h]. *)
Definition cell (source : string) (h : value -> result value) (x : row)
    : result value :=
  match x !! source with
  | Some v => h v
  | None => Raise (KeyError source)
  end.

(** What each method that neither draws random octets nor assigns
    [self.dataset] computes from the dataset it finds there. *)
Section Outcomes.
Variable repr : value -> pystr.
Variable ucd : unicode.database.

Definition guarded {A} (column_name : string) (ds : Dataset) (r : result A)
    : result A :=
  if decide (column_name ∉ column_names ds)
  then Raise (missing_column column_name)
  else r.

Definition hash_outcome (column_name hash_column_name : string) (ds : Dataset)
    : result Dataset :=
  guarded column_name ds
    (set_column hash_column_name
       (cell column_name
          (fun v => rbind (generate_hash repr v) (fun d => Ok (VStr d)))) ds).

Definition target_of (column_name : string)
    (normalized_column_name : option string) : string :=
  match normalized_column_name with
  | Some name => if decide (name = EmptyString) then column_name else name
  | None => column_name
  end.

Definition normalize_text_outcome (column_name : string)
    (normalized_column_name : option string) (ds : Dataset) : result Dataset :=
  guarded column_name ds
    (set_column (target_of column_name normalized_column_name)
       (cell column_name
          (fun v => rbind (normalize ucd v) (fun s => Ok (VStr s)))) ds).

Definition kept_indices (mask : list bool) : list nat :=
  List.map fst (List.filter snd (combine (seq 0 (length mask)) mask)).

Definition filter_rows_outcome (condition : row -> result bool) (ds : Dataset)
    : result Dataset :=
  rbind (collect condition (rows ds))
        (fun mask => Ok (datasets.select (kept_indices mask) ds)).

Definition add_constant_column_outcome (column_name : string)
    (constant_value : value) (ds : Dataset) : result Dataset :=
  set_column column_name (fun _ => Ok constant_value) ds.

Definition convert_column_type_outcome (column_name : string)
    (new_type : value -> result value) (ds : Dataset) : result Dataset :=
  guarded column_name ds
    (set_column column_name (cell column_name new_type) ds).

Definition fill_missing_outcome (column_name : string) (fill_value : value)
    (ds : Dataset) : result Dataset :=
  guarded column_name ds
    (set_column column_name
       (cell column_name
          (fun v => Ok match v with VNone => fill_value | _ => v end)) ds).

Definition summary_of (a : numpy.ndarray) : result (gmap string float) :=
  rbind (numpy.mean a) (fun mean =>
  rbind (numpy.median a) (fun median =>
  rbind (numpy.std a) (fun std =>
    Ok (<["mean" := mean]> (<["median" := median]> (<["std" := std]> ∅)))))).

Definition compute_summary_outcome (column_name : string) (ds : Dataset)
    : result (gmap string float) :=
  guarded column_name ds
    (rbind (collect (cell column_name Ok) (rows ds)) (fun column =>
     rbind (numpy.array column) summary_of)).
End Outcomes.

(** A method body whose outcome is a function of the wrapped dataset
    alone and which leaves the formatter and the random source as they
    were. *)
Definition reads_dataset_only {A} (c : M A) : Prop :=
  exists F : Dataset -> result A, forall w, c w = (F (dataset (self w)), w).

(** ** Examples: the datasets of [tests/dataset_test.py] *)

Definition sample_dataset : Dataset :=
  {| column_names := ["document"];
     rows := [ {[ "document" := VStr (codepoints "This is a test document.") ]};
               {[ "document" := VStr (codepoints "Another test document.") ]} ] |}.

Definition numerical_dataset : Dataset :=
  {| column_names := ["numerical_column"];
     rows := (fun z => {[ "numerical_column" := VInt z ]}) <$> [1; 2; 3; 4; 5]%Z |}.

Definition some_dataset : Dataset :=
  {| column_names := ["some_column"];
     rows := [ {[ "some_column" := VInt 1 ]};
               {[ "some_column" := VNone ]};
               {[ "some_column" := VInt 3 ]} ] |}.

(** A stand-in for [repr] in the examples: exact on [None], the booleans
    and the integers, an ellipsis for the values the examples do not hash. *)
Definition repr_plain (v : value) : pystr :=
  codepoints
    match v with
    | VNone => "None"
    | VBool true => "True"
    | VBool false => "False"
    | VInt z => pretty z
    | _ => "..."
    end.

(** A random source for the examples: octet [i] is [37 i + 11]. *)
Definition example_source : os.entropy :=
  {| os.octet := fun i => N.of_nat (37 * i + 11); os.consumed := 0 |}.

#[global] Instance text_ok_dec (v : value) : Decision (text_ok v).
Proof. destruct v; simpl; apply _. Defined.

#[global] Instance is_dataset_dec (ds : Dataset) : Decision (is_dataset ds).
Proof. unfold is_dataset. apply _. Defined.

(** The identifiers that [n] successive calls of [uuid.uuid4] return, and
    the random source after them. *)
Fixpoint uuids (n : nat) (e : os.entropy) : list N * os.entropy :=
  match n with
  | O => ([], e)
  | S n' =>
      let (b, e') := os.urandom 16 e in
      let (us, e'') := uuids n' e' in
      (uuidlib.UUID b :: us, e'')
  end.

(** What [uuid] returns on a dataset, given the random source. *)
Definition uuid_outcome (uuid_column_name : string) (ds : Dataset)
    (e : os.entropy) : Dataset :=
  match rows ds with
  | [] => ds
  | _ =>
      {| column_names :=
           column_names ds ++
           (if decide (uuid_column_name ∈ column_names ds)
            then [] else [uuid_column_name]);
         rows := zip_with (fun u x => <[uuid_column_name := VStr (uuidlib.str u)]> x)
                          (fst (uuids (length (rows ds)) e)) (rows ds) |}
  end.

(** Determinism of a method body: formatters that wrap equal datasets get
    equal outcomes, whatever the random source holds, and a second run
    right after the first has the outcome of the first. *)
Definition deterministic {A} (c : M A) : Prop :=
  (forall w w', dataset (self w) = dataset (self w') -> fst (c w) = fst (c w'))
  /\ (forall w, fst (c (snd (c w))) = fst (c w)).

(** The cell of column [name] in every row of an outcome. *)
Definition column_of (name : string) (r : result Dataset) : list (option value) :=
  match r with
  | Ok ds => (fun x : row => x !! name) <$> rows ds
  | Raise _ => []
  end.


(** The schema of an outcome. *)
Definition names_of (r : result Dataset) : list string :=
  match r with
  | Ok ds => column_names ds
  | Raise _ => []
  end.

(** ** Callables used by the tests *)

Fixpoint starts_with (needle s : pystr) : bool :=
  match needle, s with
  | [], _ => true
  | _ :: _, [] => false
  | a :: needle', b :: s' => (a =? b) && starts_with needle' s'
  end.

(** [needle in s] on strings *)
Fixpoint contains (needle s : pystr) : bool :=
  starts_with needle s ||
  match s with
  | [] => false
  | _ :: s' => contains needle s'
  end.

(** [lambda x: "Another" in x["document"]] *)
Definition mentions_another (x : row) : result bool :=
  match x !! "document" with
  | Some (VStr s) => Ok (contains (codepoints "Another") s)
  | Some v => Raise (TypeError ("argument of type '" +:+ type_name v
                                +:+ "' is not iterable"))
  | None => Raise (KeyError "document")
  end.

(** [int] applied to an integer or to a string of decimal digits, the
    only arguments the tests give it. *)
Definition int_of_digits (s : pystr) : option Z :=
  if forallb (fun c => (48 <=? c) && (c <=? 57)) s && negb (length s =? 0)%nat
  then Some (Z.of_N (fold_left (fun acc c => 10 * acc + (c - 48)) s 0))
  else None.

Definition builtin_int (v : value) : result value :=
  match v with
  | VInt z => Ok (VInt z)
  | VBool b => Ok (VInt (if b then 1 else 0))
  | VStr s =>
      match int_of_digits s with
      | Some z => Ok (VInt z)
      | None => Raise (ValueError "invalid literal for int() with base 10")
      end
  | _ => Raise (TypeError "int() argument must be a string, a bytes-like object or a real number")
  end.

(** The dataset of [test_convert_column_type]: the sample with a column
    of digit strings added. *)
Definition number_dataset : Dataset :=
  {| column_names := ["document"; "number_str"];
     rows := [ {[ "document" := VStr (codepoints "This is a test document.");
                  "number_str" := VStr (codepoints "1") ]};
               {[ "document" := VStr (codepoints "Another test document.");
                  "number_str" := VStr (codepoints "2") ]} ] |}.

(** [formatted_dataset[i][name]] on the outcome of a method. *)
Definition at_row {A} (i : nat) (name : string) (r : result Dataset * A)
    : option value :=
  match fst r with
  | Ok ds => x ← rows ds !! i; x !! name
  | Raise _ => None
  end.

(** A code point that [str.lower] leaves alone. *)
Definition lowered (db : unicode.database) (c : N) : Prop :=
  c <> unicode.capital_sigma /\ unicode.tolower_full db c = [c].

(** What the lower-case mappings of the character database satisfy: the
    code points of a mapping are themselves mapped to themselves, and none
    of them is the capital sigma. *)
Definition stable_lowercase (db : unicode.database) : Prop :=
  (forall c d, c <> unicode.capital_sigma ->
               d ∈ unicode.tolower_full db c -> lowered db d)
  /\ lowered db unicode.small_sigma
  /\ lowered db unicode.small_final_sigma.

(** The sixteen octets that the [i]-th call of [uuid.uuid4] receives when
    the calls start at the random source [e]. *)
Definition octets_for (e : os.entropy) (i : nat) : pybytes :=
  fst (os.urandom 16 {| os.octet := os.octet e;
                        os.consumed := (os.consumed e + 16 * i)%nat |}).


(** The six bit positions that [UUID(bytes=b, version=4)] forces: the two
    variant bits and the four version bits. *)
Definition forced_bits : list N := [62; 63; 76; 77; 78; 79].

(** * Properties *)

(** ** Test vectors for the codec and the hash *)

Example sha256_empty :
  hashlib.sha256_hexdigest [] =
  codepoints "e3b0c44298fc1c149afbf4c8996fb92427ae41e4649b934ca495991b7852b855".
Proof. vm_compute. reflexivity. Qed.

Example sha256_abc :
  hashlib.sha256_hexdigest (codepoints "abc") =
  codepoints "ba7816bf8f01cfea414140de5dae2223b00361a396177a9cb410ff61f20015ad".
Proof. vm_compute. reflexivity. Qed.

Example sha256_two_blocks :
  hashlib.sha256_hexdigest (codepoints
    "The quick brown fox jumps over the lazy dog, twice over the lazy dog and back.") =
  codepoints "a36e2e418815ebb77bc00078f45ac3fe55b18ec2879c82b535387b7fef2c618a".
Proof. vm_compute. reflexivity. Qed.

(** "héllo €𝄞": one code point of each UTF-8 width. *)
Example encode_widths :
  codec.encode [104; 233; 108; 108; 111; 32; 0x20AC; 0x1D11E] =
  Ok [104; 195; 169; 108; 108; 111; 32; 226; 130; 172; 240; 157; 132; 158].
Proof. reflexivity. Qed.

Example encode_surrogate :
  codec.encode [104; 0xD800] = Raise (UnicodeEncodeError 1).
Proof. reflexivity. Qed.

(** ** Text *)

Lemma lstrip_head (s : pystr) :
  match unicode.lstrip s with
  | [] => True
  | c :: _ => unicode.is_space c = false
  end.
Proof.
  induction s as [|c s IH]; simpl; [done|].
  destruct (unicode.is_space c) eqn:E; [done|]. by rewrite E.
Qed.

Lemma lstrip_fixed (c : N) (s : pystr) :
  unicode.is_space c = false -> unicode.lstrip (c :: s) = c :: s.
Proof. intros E. simpl. by rewrite E. Qed.

Lemma rstrip_head (c : N) (s : pystr) :
  unicode.is_space c = false -> exists t, unicode.rstrip (c :: s) = c :: t.
Proof.
  intros E. simpl. rewrite E. destruct (unicode.rstrip s); eauto.
Qed.

Lemma rstrip_idempotent (s : pystr) :
  unicode.rstrip (unicode.rstrip s) = unicode.rstrip s.
Proof.
  induction s as [|c s IH]; simpl; [done|].
  destruct (unicode.rstrip s) as [|k ks] eqn:E.
  - destruct (unicode.is_space c) eqn:Ec; simpl; [done|]. by rewrite Ec.
  - change (unicode.rstrip (c :: k :: ks)) with
      (match unicode.rstrip (k :: ks) with
       | [] => if unicode.is_space c then [] else [c]
       | kept => c :: kept
       end).
    by rewrite IH.
Qed.

Lemma strip_idempotent (s : pystr) :
  unicode.strip (unicode.strip s) = unicode.strip s.
Proof.
  unfold unicode.strip.
  pose proof (lstrip_head s) as Hh.
  destruct (unicode.lstrip s) as [|c t]; [done|].
  destruct (rstrip_head c t Hh) as [u Hu].
  rewrite Hu, (lstrip_fixed c u Hh), <- Hu. apply rstrip_idempotent.
Qed.

Lemma lstrip_Forall (P : N -> Prop) (s : pystr) :
  Forall P s -> Forall P (unicode.lstrip s).
Proof.
  induction 1 as [|c s Hc Hs IH]; simpl; [constructor|].
  destruct (unicode.is_space c); [done | by constructor].
Qed.

Lemma rstrip_Forall (P : N -> Prop) (s : pystr) :
  Forall P s -> Forall P (unicode.rstrip s).
Proof.
  induction 1 as [|c s Hc Hs IH]; simpl; [constructor|].
  destruct (unicode.rstrip s).
  - destruct (unicode.is_space c); by repeat constructor.
  - by constructor.
Qed.

Lemma strip_Forall (P : N -> Prop) (s : pystr) :
  Forall P s -> Forall P (unicode.strip s).
Proof. intros. by apply rstrip_Forall, lstrip_Forall. Qed.

Lemma do_lower_lowered (db : unicode.database) (s before : pystr) :
  Forall (lowered db) s -> unicode.do_lower db before s = s.
Proof.
  intros H. revert before.
  induction H as [|c s [Hc Ht] Hs IH]; intros before; simpl; [done|].
  apply N.eqb_neq in Hc. rewrite Hc, Ht, IH. done.
Qed.

Lemma do_lower_all_lowered (db : unicode.database) (s before : pystr) :
  stable_lowercase db -> Forall (lowered db) (unicode.do_lower db before s).
Proof.
  intros (Hmap & Hsig & Hfin). revert before.
  induction s as [|c s IH]; intros before; simpl; [constructor|].
  apply Forall_app. split; [|apply IH].
  destruct (c =? unicode.capital_sigma) eqn:E.
  - unfold unicode.handle_capital_sigma.
    constructor; [|constructor]. by destruct (_ && _).
  - apply N.eqb_neq in E. apply Forall_forall. intros d Hd. by apply (Hmap c).
Qed.

Lemma lower_strip_fixed (db : unicode.database) (s : pystr) :
  stable_lowercase db ->
  let t := unicode.strip (unicode.lower db s) in
  unicode.strip (unicode.lower db t) = t.
Proof.
  intros Hdb t. unfold unicode.lower at 1.
  rewrite do_lower_lowered.
  - apply strip_idempotent.
  - apply strip_Forall, do_lower_all_lowered, Hdb.
Qed.


(** ** Traversals *)

Lemma collect_Ok {A B} (g : A -> result B) (l : list A) (bs : list B) :
  collect g l = Ok bs <-> Forall2 (fun a b => g a = Ok b) l bs.
Proof.
  revert bs. induction l as [|a l IH]; intros bs; simpl.
  - split; [intros [= <-]; constructor | by inversion 1].
  - destruct (g a) as [b|e] eqn:Ea; simpl.
    + destruct (collect g l) as [bs'|e] eqn:El; simpl.
      * split.
        -- intros [= <-]. constructor; [done | by apply IH].
        -- inversion 1 as [|? b' ? bs'' Hb Hbs]; subst.
           apply IH in Hbs. congruence.
      * split; [done|]. inversion 1 as [|? b' ? bs'' Hb Hbs]; subst.
        apply IH in Hbs. done.
    + split; [done|]. inversion 1; congruence.
Qed.

Lemma collect_total {A B} (g : A -> result B) (l : list A) :
  Forall (fun a => exists b, g a = Ok b) l -> exists bs, collect g l = Ok bs.
Proof.
  induction 1 as [|a l [b Hb] _ [bs Hbs]]; simpl; [by eexists|].
  rewrite Hb, Hbs. by eexists.
Qed.

Lemma collect_Raise {A B} (g : A -> result B) (l : list A) (e : exn) :
  collect g l = Raise e -> exists a, a ∈ l /\ g a = Raise e.
Proof.
  induction l as [|a l IH]; simpl; [done|].
  destruct (g a) as [b|e'] eqn:Ea; simpl.
  - destruct (collect g l) as [bs|e'] eqn:El; simpl; [done|].
    intros [= ->]. destruct IH as (a' & Hin & Ha'); [done|].
    exists a'. split; [by right | done].
  - intros [= ->]. exists a. split; [by left | done].
Qed.

Lemma collect_ext {A B} (g g' : A -> result B) (l : list A) :
  Forall (fun a => g a = g' a) l -> collect g l = collect g' l.
Proof. induction 1 as [|a l Ha _ IH]; simpl; [done|]. by rewrite Ha, IH. Qed.

Lemma collect_length {A B} (g : A -> result B) (l : list A) (bs : list B) :
  collect g l = Ok bs -> length bs = length l.
Proof. intros H. apply collect_Ok in H. symmetry. by eapply Forall2_length. Qed.

Lemma collect_lookup {A B} (g : A -> result B) (l : list A) (bs : list B)
    (i : nat) (a : A) :
  collect g l = Ok bs -> l !! i = Some a -> exists b, bs !! i = Some b /\ g a = Ok b.
Proof.
  intros H Ha. apply collect_Ok in H.
  destruct (Forall2_lookup_l _ _ _ _ _ H Ha) as (b & Hb & Hg). eauto.
Qed.

Lemma for_each_lift {A B} (f : A -> M B) (g : A -> result B) (l : list A)
    (w : world) :
  (forall a w', f a w' = (g a, w')) -> for_each f l w = (collect g l, w).
Proof.
  intros Hf. induction l as [|a l IH]; simpl; [done|].
  unfold bind at 1. rewrite Hf. destruct (g a) as [b|e]; simpl; [|done].
  unfold bind. rewrite IH. by destruct (collect g l).
Qed.

(** ** [Dataset.map] with a one-entry dict *)

Lemma collect_singletons (target : string) (g : row -> result value)
    (l : list row) :
  collect (fun x => rbind (g x) (fun v => Ok ({[ target := v ]} : row))) l =
  rbind (collect g l)
        (fun vs => Ok ((fun v => ({[ target := v ]} : row)) <$> vs)).
Proof.
  induction l as [|x l IH]; simpl; [done|].
  destruct (g x) as [v|e]; simpl; [|done].
  rewrite IH. by destruct (collect g l).
Qed.

Lemma new_columns_singleton (names : list string) (target : string) (v : value)
    (outs : list row) :
  datasets.new_columns names (({[ target := v ]} : row) :: outs) =
  if decide (target ∈ names) then [] else [target].
Proof.
  unfold datasets.new_columns. rewrite map_to_list_singleton. simpl.
  destruct (decide (target ∈ names)) as [Hin|Hin].
  - by rewrite bool_decide_eq_false_2 by (intros Hn; by apply Hn).
  - by rewrite bool_decide_eq_true_2.
Qed.

Lemma zip_with_singletons (target : string) (vs : list value) (l : list row) :
  zip_with (fun (out x : row) => out ∪ x)
           ((fun v => ({[ target := v ]} : row)) <$> vs) l =
  zip_with (fun v (x : row) => <[target := v]> x) vs l.
Proof.
  revert l. induction vs as [|v vs IH]; intros [|x l]; simpl; try done.
  by rewrite IH, insert_union_singleton_l.
Qed.

Lemma map_set_column (target : string) (g : row -> result value)
    (function : row -> M row) (ds : Dataset) (w : world) :
  (forall x w', function x w' =
                (rbind (g x) (fun v => Ok ({[ target := v ]} : row)), w')) ->
  datasets.map function ds w = (set_column target g ds, w).
Proof.
  intros Hf. unfold datasets.map, set_column.
  destruct (rows ds) as [|x l] eqn:Hrows; [done|].
  unfold bind.
  rewrite (for_each_lift function _ (x :: l) w Hf), collect_singletons.
  destruct (collect g (x :: l)) as [vs|e] eqn:Hc; simpl; [|done].
  unfold ret. do 2 f_equal.
  pose proof (collect_length _ _ _ Hc) as Hlen.
  destruct vs as [|v vs]; [done|]. simpl fmap.
  rewrite new_columns_singleton.
  f_equal. apply (zip_with_singletons target (v :: vs) (x :: l)).
Qed.

Lemma set_column_rows (target : string) (g : row -> result value)
    (ds ds' : Dataset) :
  set_column target g ds = Ok ds' ->
  length (rows ds') = length (rows ds) /\
  forall i x, rows ds !! i = Some x ->
    exists v, g x = Ok v /\ rows ds' !! i = Some (<[target := v]> x).
Proof.
  unfold set_column. destruct (rows ds) as [|x0 l] eqn:Hrows.
  - intros [= <-]. rewrite Hrows. split; [done|]. intros i x. by rewrite lookup_nil.
  - destruct (collect g (x0 :: l)) as [vs|e] eqn:Hc; simpl; [|done].
    intros [= <-]. simpl.
    pose proof (collect_length _ _ _ Hc) as Hlen. split.
    + rewrite length_zip_with. simpl in *. lia.
    + intros i x Hx.
      destruct (collect_lookup _ _ _ _ _ Hc Hx) as (v & Hv & Hg).
      exists v. split; [done|].
      rewrite lookup_zip_with, Hv. simpl. by rewrite Hx.
Qed.

Lemma set_column_names (target : string) (g : row -> result value)
    (ds ds' : Dataset) :
  set_column target g ds = Ok ds' ->
  rows ds <> [] ->
  column_names ds' =
  column_names ds ++ (if decide (target ∈ column_names ds) then [] else [target]).
Proof.
  unfold set_column. destruct (rows ds) as [|x0 l] eqn:Hrows; [done|].
  destruct (collect g (x0 :: l)) as [vs|e]; simpl; [|done].
  by intros [= <-].
Qed.

Lemma set_column_total (target : string) (g : row -> result value) (ds : Dataset) :
  Forall (fun x => exists v, g x = Ok v) (rows ds) ->
  exists ds', set_column target g ds = Ok ds'.
Proof.
  intros H. unfold set_column. destruct (rows ds) as [|x0 l]; [by eexists|].
  destruct (collect_total g _ H) as [vs ->]. by eexists.
Qed.

Lemma set_column_Raise (target : string) (g : row -> result value) (ds : Dataset)
    (e : exn) :
  set_column target g ds = Raise e -> exists x, x ∈ rows ds /\ g x = Raise e.
Proof.
  unfold set_column. destruct (rows ds) as [|x0 l]; [done|].
  destruct (collect g (x0 :: l)) as [vs|e'] eqn:Hc; simpl; [done|].
  intros [= ->]. by apply collect_Raise.
Qed.

(** ** The methods as functions of the wrapped dataset *)

Section Runs.
Variable repr : value -> pystr.
Variable ucd : unicode.database.

Lemma hash_run (column_name hash_column_name : string) (w : world) :
  hash repr column_name hash_column_name w =
  (hash_outcome repr column_name hash_column_name (dataset (self w)), w).
Proof.
  unfold hash, hash_outcome, guarded, memory, timer, bind at 1, get_dataset.
  destruct (decide _); [done|].
  apply map_set_column. intros x w'.
  unfold bind, getitem, cell, lift, ret.
  destruct (x !! column_name); simpl; [|done].
  by destruct (generate_hash repr v).
Qed.

Lemma normalize_text_run (column_name : string)
    (normalized_column_name : option string) (w : world) :
  normalize_text ucd column_name normalized_column_name w =
  (normalize_text_outcome ucd column_name normalized_column_name
     (dataset (self w)), w).
Proof.
  unfold normalize_text, normalize_text_outcome, guarded, memory, timer,
    bind at 1, get_dataset.
  destruct (decide _); [done|].
  apply map_set_column. intros x w'.
  unfold bind, getitem, cell, lift, ret.
  destruct (x !! column_name); simpl; [|done].
  by destruct (normalize ucd v).
Qed.

Lemma filter_rows_run (condition : row -> result bool) (w : world) :
  filter_rows condition w =
  (filter_rows_outcome condition (dataset (self w)), w).
Proof.
  unfold filter_rows, filter_rows_outcome, memory, timer, bind at 1,
    get_dataset, datasets.filter, bind.
  rewrite (for_each_lift _ condition) by done.
  by destruct (collect condition _).
Qed.

Lemma rename_column_run (old_column_name new_column_name : string) :
  reads_dataset_only (rename_column old_column_name new_column_name).
Proof.
  exists (fun ds => fst (rename_column old_column_name new_column_name
                           (wrapping ds (os.mkEntropy (fun _ => 0) 0)))).
  intros w.
  unfold rename_column, datasets.rename_column, bind, get_dataset, raise, ret.
  simpl. by repeat case_decide.
Qed.

Lemma drop_column_run (column_name : string) :
  reads_dataset_only (drop_column column_name).
Proof.
  exists (fun ds => fst (drop_column column_name
                           (wrapping ds (os.mkEntropy (fun _ => 0) 0)))).
  intros w.
  unfold drop_column, datasets.remove_columns, bind, get_dataset, raise, ret.
  simpl. case_decide; [done|]. by case_bool_decide.
Qed.

Lemma add_constant_column_run (column_name : string) (constant_value : value)
    (w : world) :
  add_constant_column column_name constant_value w =
  (add_constant_column_outcome column_name constant_value (dataset (self w)), w).
Proof.
  unfold add_constant_column, add_constant_column_outcome, bind at 1, get_dataset.
  by apply map_set_column.
Qed.

Lemma convert_column_type_run (column_name : string)
    (new_type : value -> result value) (w : world) :
  convert_column_type column_name new_type w =
  (convert_column_type_outcome column_name new_type (dataset (self w)), w).
Proof.
  unfold convert_column_type, convert_column_type_outcome, guarded, memory,
    timer, bind at 1, get_dataset.
  destruct (decide _); [done|].
  apply map_set_column. intros x w'.
  unfold bind, getitem, cell, lift, ret.
  destruct (x !! column_name); simpl; [|done].
  by destruct (new_type v).
Qed.

Lemma fill_missing_run (column_name : string) (fill_value : value) (w : world) :
  fill_missing column_name fill_value w =
  (fill_missing_outcome column_name fill_value (dataset (self w)), w).
Proof.
  unfold fill_missing, fill_missing_outcome, guarded, memory, timer,
    bind at 1, get_dataset.
  destruct (decide _); [done|].
  apply map_set_column. intros x w'.
  unfold bind, getitem, cell, lift, ret.
  by destruct (x !! column_name).
Qed.

Lemma compute_summary_run (column_name : string) (w : world) :
  compute_summary column_name w =
  (compute_summary_outcome column_name (dataset (self w)), w).
Proof.
  unfold compute_summary, compute_summary_outcome, guarded, memory, timer,
    bind at 1, get_dataset.
  destruct (decide _); [done|].
  unfold datasets.column, bind at 1.
  rewrite (for_each_lift _ (cell column_name Ok)).
  2:{ intros x w'. unfold getitem, cell. by destruct (x !! column_name). }
  destruct (collect _ _) as [column|e]; simpl; [|done].
  unfold summary_of, bind, lift, ret.
  destruct (numpy.array column) as [a|e]; simpl; [|done].
  destruct (numpy.mean a); simpl; [|done].
  destruct (numpy.median a); simpl; [|done].
  by destruct (numpy.std a).
Qed.
End Runs.

(** ** Datasets and encodable text *)

Lemma encode_from_total (s : pystr) (pos : nat) :
  forallb codec.is_scalar s = true -> exists data, codec.encode_from pos s = Ok data.
Proof.
  revert pos. induction s as [|c s IH]; intros pos; simpl; [by eexists|].
  intros [Hc Hs]%andb_true_iff. rewrite Hc.
  destruct (IH (S pos) Hs) as [data ->]. by eexists.
Qed.

Lemma encode_total (s : pystr) :
  forallb codec.is_scalar s = true -> exists data, codec.encode s = Ok data.
Proof. apply encode_from_total. Qed.

Lemma codepoints_scalar (s : string) :
  forallb codec.is_scalar (codepoints s) = true.
Proof.
  unfold codepoints. induction (list_ascii_of_string s) as [|a l IH]; [done|].
  simpl. rewrite IH, andb_true_r.
  pose proof (N_ascii_bounded a) as Ha.
  unfold codec.is_scalar. apply orb_true_iff. left. apply N.ltb_lt. lia.
Qed.

Lemma repr_plain_encodable (v : value) :
  forallb codec.is_scalar (repr_plain v) = true.
Proof. apply codepoints_scalar. Qed.

Lemma dataset_row (ds : Dataset) (x : row) (c : string) :
  is_dataset ds -> x ∈ rows ds -> c ∈ column_names ds ->
  exists v, x !! c = Some v /\ text_ok v.
Proof.
  intros Hds Hx Hc.
  apply (proj1 (Forall_forall _ _) Hds) in Hx as [Hdom Htext].
  assert (is_Some (x !! c)) as [v Hv].
  { apply elem_of_dom. rewrite Hdom. by apply elem_of_list_to_set. }
  exists v. split; [done|]. by apply (Htext c).
Qed.

Lemma dataset_row_at (ds : Dataset) (i : nat) (x : row) (c : string) :
  is_dataset ds -> rows ds !! i = Some x -> c ∈ column_names ds ->
  exists v, x !! c = Some v /\ text_ok v.
Proof.
  intros Hds Hx. apply dataset_row; [done|]. by eapply list_elem_of_lookup_2.
Qed.

Section Hashing.
Variable repr : value -> pystr.
Hypothesis repr_encodable : forall v, forallb codec.is_scalar (repr v) = true.

Lemma str_encodable (v : value) :
  text_ok v -> exists data, codec.encode (str repr v) = Ok data.
Proof.
  intros Hv. apply encode_total.
  destruct v; simpl; try apply repr_encodable. exact Hv.
Qed.

Lemma hash_cell_total (ds : Dataset) (c : string) :
  is_dataset ds -> c ∈ column_names ds ->
  Forall (fun x => exists h,
            cell c (fun v => rbind (generate_hash repr v) (fun d => Ok (VStr d))) x
            = Ok h) (rows ds).
Proof.
  intros Hds Hc. apply Forall_forall. intros x Hx.
  destruct (dataset_row ds x c Hds Hx Hc) as (v & Hv & Htext).
  destruct (str_encodable v Htext) as [data Hdata].
  unfold cell, generate_hash. rewrite Hv, Hdata. simpl. by eexists.
Qed.

(** C1. For a dataset [ds] and a column [C] of it, [hash C H] returns a
    dataset of the same length in which, at every row index, column [H]
    holds the SHA-256 hexadecimal digest of the UTF-8 encoding of
    [str] of the source row's value in [C], and every other column
    holds what it held. *)
Theorem hash_column_is_sha256 (ds : Dataset) (C H : string) (e : os.entropy) :
  is_dataset ds ->
  C ∈ column_names ds ->
  exists ds',
    hash repr C H (wrapping ds e) = (Ok ds', wrapping ds e) /\
    length (rows ds') = length (rows ds) /\
    forall i x, rows ds !! i = Some x ->
      exists v data x',
        x !! C = Some v /\
        codec.encode (str repr v) = Ok data /\
        rows ds' !! i = Some x' /\
        x' !! H = Some (VStr (hashlib.sha256_hexdigest data)) /\
        forall k, k <> H -> x' !! k = x !! k.
Proof.
  intros Hds HC. rewrite hash_run. simpl.
  unfold hash_outcome, guarded. rewrite decide_False by (intros Hn; by apply Hn).
  destruct (set_column_total H _ ds (hash_cell_total ds C Hds HC)) as [ds' Hds'].
  exists ds'. split; [by rewrite Hds'|].
  destruct (set_column_rows _ _ _ _ Hds') as [Hlen Hrows].
  split; [done|]. intros i x Hx.
  destruct (Hrows i x Hx) as (h & Hh & Hx').
  destruct (dataset_row_at ds i x C Hds Hx HC) as (v & Hv & Htext).
  destruct (str_encodable v Htext) as [data Hdata].
  unfold cell, generate_hash in Hh. rewrite Hv, Hdata in Hh. simpl in Hh.
  injection Hh as <-.
  exists v, data, (<[H := VStr (hashlib.sha256_hexdigest data)]> x).
  repeat split; try done.
  - apply lookup_insert_eq.
  - intros k Hk. by apply lookup_insert_ne.
Qed.
End Hashing.

Lemma hash_column_is_sha256_witness :
  is_dataset sample_dataset /\
  "document" ∈ column_names sample_dataset /\
  exists ds',
    hash repr_plain "document" "hash" (wrapping sample_dataset example_source)
    = (Ok ds', wrapping sample_dataset example_source) /\
    length (rows ds') = length (rows sample_dataset) /\
    forall i x, rows sample_dataset !! i = Some x ->
      exists v data x',
        x !! "document" = Some v /\
        codec.encode (str repr_plain v) = Ok data /\
        rows ds' !! i = Some x' /\
        x' !! "hash" = Some (VStr (hashlib.sha256_hexdigest data)) /\
        forall k, k <> "hash" -> x' !! k = x !! k.
Proof.
  assert (is_dataset sample_dataset) as Hds by compute_done.
  assert ("document" ∈ column_names sample_dataset) as Hc by compute_done.
  split; [exact Hds|]. split; [exact Hc|].
  exact (hash_column_is_sha256 repr_plain repr_plain_encodable
           sample_dataset "document" "hash" example_source Hds Hc).
Defined.

(** ** Missing columns *)

Section MissingColumn.
Variable repr : value -> pystr.
Variable ucd : unicode.database.

(** C2. When the named column is not among the dataset's columns, each of
    [hash], [normalize_text], [rename_column], [drop_column],
    [convert_column_type], [fill_missing] and [compute_summary] raises a
    [ValueError] whose message names the column, and the formatter (the
    whole state) is as it was before the call. *)
Theorem missing_column_raises (w : world) (c : string)
    (target new_name : string) (normalized : option string)
    (new_type : value -> result value) (fill_value : value) :
  c ∉ column_names (dataset (self w)) ->
  let err := ValueError ("Column '" +:+ c +:+ "' does not exist in the dataset.") in
  hash repr c target w = (Raise err, w) /\
  normalize_text ucd c normalized w = (Raise err, w) /\
  rename_column c new_name w = (Raise err, w) /\
  drop_column c w = (Raise err, w) /\
  convert_column_type c new_type w = (Raise err, w) /\
  fill_missing c fill_value w = (Raise err, w) /\
  compute_summary c w = (Raise err, w).
Proof.
  intros Hc err.
  rewrite hash_run, normalize_text_run, convert_column_type_run,
    fill_missing_run, compute_summary_run.
  unfold hash_outcome, normalize_text_outcome, convert_column_type_outcome,
    fill_missing_outcome, compute_summary_outcome, guarded.
  rewrite !decide_True by done.
  unfold rename_column, drop_column, bind, get_dataset.
  rewrite !decide_True by done.
  repeat split.
Qed.
End MissingColumn.

Lemma missing_column_raises_witness :
  ("title" ∉ column_names (dataset (self (wrapping sample_dataset example_source)))) /\
  drop_column "title" (wrapping sample_dataset example_source) =
  (Raise (ValueError "Column 'title' does not exist in the dataset."),
   wrapping sample_dataset example_source).
Proof.
  assert ("title" ∉ column_names (dataset (self (wrapping sample_dataset example_source))))
    as Hc by compute_done.
  split; [exact Hc|].
  pose proof (missing_column_raises repr_plain unicode.ascii_letters
                (wrapping sample_dataset example_source) "title" "hash" "heading"
                None Ok VNone Hc) as (_ & _ & _ & Hdrop & _).
  exact Hdrop.
Defined.

(** ** Identifiers *)

Lemma lor_lt_pow2 (a b n : N) : a < 2 ^ n -> b < 2 ^ n -> N.lor a b < 2 ^ n.
Proof.
  intros Ha Hb.
  destruct (N.eq_dec a 0) as [->|Ha0]; [by rewrite N.lor_0_l|].
  destruct (N.eq_dec b 0) as [->|Hb0]; [by rewrite N.lor_0_r|].
  assert (N.lor a b <> 0) as Hab by (intros [? _]%N.lor_eq_0_iff; done).
  apply N.log2_lt_pow2; [lia|]. rewrite N.log2_lor.
  apply N.log2_lt_pow2 in Ha, Hb; lia.
Qed.

Lemma from_be_bound (bs : pybytes) (acc k : N) :
  Forall (fun b => b < 256) bs -> acc < 2 ^ k ->
  fold_left (fun a b => N.lor (N.shiftl a 8) b) bs acc
  < 2 ^ (k + 8 * N.of_nat (length bs)).
Proof.
  intros Hbs. revert acc k.
  induction Hbs as [|b bs Hb _ IH]; intros acc k Hacc; simpl.
  - by rewrite N.add_0_r.
  - replace (k + 8 * N.of_nat (S (length bs)))
      with ((k + 8) + 8 * N.of_nat (length bs)) by lia.
    apply IH. apply lor_lt_pow2.
    + rewrite N.shiftl_mul_pow2, N.pow_add_r.
      apply N.mul_lt_mono_pos_r; [done|done].
    + rewrite N.pow_add_r.
      assert (2 ^ k <> 0) by (apply N.pow_nonzero; lia).
      change (2 ^ 8) with 256. nia.
Qed.

Lemma UUID_bound (b : pybytes) :
  length b = 16%nat -> Forall (fun o => o < 256) b -> uuidlib.UUID b < 2 ^ 128.
Proof.
  intros Hlen Hb. unfold uuidlib.UUID.
  pose proof (from_be_bound b 0 0 Hb eq_refl) as Hint.
  rewrite Hlen in Hint. change (0 + 8 * N.of_nat 16) with 128 in Hint.
  fold (hashlib.from_be b) in Hint.
  apply lor_lt_pow2; [|done].
  eapply N.le_lt_trans; [apply N.ldiff_le_l|].
  apply lor_lt_pow2; [|done].
  eapply N.le_lt_trans; [apply N.ldiff_le_l|]. done.
Qed.

Lemma hex_width_bound (n : N) : n < 2 ^ 128 -> Nat.max 32 (uuidlib.hex_width n) = 32%nat.
Proof.
  intros Hn. unfold uuidlib.hex_width.
  assert (N.log2 n < 128) as Hlog.
  { destruct (N.eq_dec n 0) as [->|Hn0]; [done|]. apply N.log2_lt_pow2; lia. }
  assert (N.log2 n / 4 < 32) by (apply N.Div0.div_lt_upper_bound; lia).
  lia.
Qed.

Lemma hex_char_is_hex (d : N) : d < 16 -> uuidlib.is_hex (hashlib.hex_char d) = true.
Proof.
  intros Hd. unfold hashlib.hex_char, uuidlib.is_hex.
  destruct (d <? 10) eqn:E.
  - apply N.ltb_lt in E. apply orb_true_iff. left.
    apply andb_true_iff. split; apply N.leb_le; lia.
  - apply N.ltb_ge in E. apply orb_true_iff. right.
    apply andb_true_iff. split; apply N.leb_le; lia.
Qed.

Lemma format_032x_hex (n : N) :
  n < 2 ^ 128 ->
  length (uuidlib.format_032x n) = 32%nat /\
  Forall (fun c => uuidlib.is_hex c = true) (uuidlib.format_032x n).
Proof.
  intros Hn. unfold uuidlib.format_032x. rewrite (hex_width_bound n Hn).
  split; [by rewrite length_map, length_rev, length_seq|].
  apply Forall_forall. intros c [i [-> _]]%list_elem_of_fmap.
  apply hex_char_is_hex.
  change 15 with (N.ones 4). rewrite N.land_ones.
  by apply N.mod_lt.
Qed.

Lemma canonical_layout (hex : pystr) :
  length hex = 32%nat ->
  Forall (fun c => uuidlib.is_hex c = true) hex ->
  uuidlib.canonical
    (uuidlib.slice 0 8 hex ++ [45] ++ uuidlib.slice 8 12 hex ++ [45]
     ++ uuidlib.slice 12 16 hex ++ [45] ++ uuidlib.slice 16 20 hex ++ [45]
     ++ drop 20 hex) = true.
Proof.
  intros Hlen Hhex.
  do 32 (destruct hex as [|? hex]; [done|]).
  destruct hex; [|done]. clear Hlen.
  repeat match goal with
         | H : Forall _ (_ :: _) |- _ => apply Forall_cons in H as [? H]
         end.
  unfold uuidlib.canonical, uuidlib.slice. cbn -[uuidlib.is_hex N.eqb].
  repeat match goal with
         | H : uuidlib.is_hex _ = true |- _ => rewrite H; clear H
         end.
  reflexivity.
Qed.

(** Whatever octets the random source delivers, the identifier is written
    as 8-4-4-4-12 lower-case hexadecimal digits: 36 characters. *)
Lemma uuid_str_canonical (b : pybytes) :
  length b = 16%nat -> Forall (fun o => o < 256) b ->
  uuidlib.canonical (uuidlib.str (uuidlib.UUID b)) = true.
Proof.
  intros Hlen Hb. unfold uuidlib.str.
  destruct (format_032x_hex _ (UUID_bound b Hlen Hb)) as [H32 Hhex].
  by apply canonical_layout.
Qed.

Lemma canonical_length (s : pystr) : uuidlib.canonical s = true -> length s = 36%nat.
Proof.
  unfold uuidlib.canonical. intros [H _]%andb_true_iff. by apply Nat.eqb_eq.
Qed.

Lemma urandom_octets (n : nat) (e : os.entropy) :
  length (fst (os.urandom n e)) = n /\
  Forall (fun o => o < 256) (fst (os.urandom n e)).
Proof.
  unfold os.urandom. simpl. split; [by rewrite length_map, length_seq|].
  apply Forall_forall. intros o [i [-> _]]%list_elem_of_fmap.
  by apply N.mod_lt.
Qed.

Lemma uuids_canonical (n : nat) (e : os.entropy) :
  length (fst (uuids n e)) = n /\
  Forall (fun u => uuidlib.canonical (uuidlib.str u) = true) (fst (uuids n e)).
Proof.
  revert e. induction n as [|n IH]; intros e; cbn [uuids]; [by split|].
  destruct (os.urandom 16 e) as [b e'] eqn:Hb.
  destruct (uuids n e') as [us e''] eqn:Hus.
  specialize (IH e'). rewrite Hus in IH. simpl in IH. destruct IH as [Hlen Hall].
  split; [simpl; congruence|]. constructor; [|done].
  pose proof (urandom_octets 16 e) as [H16 H256]. rewrite Hb in H16, H256.
  by apply uuid_str_canonical.
Qed.

Lemma uuid_cell_run (uuid_column_name : string) (w : world) :
  (let* u := uuidlib.uuid4 in
   ret ({[ uuid_column_name := VStr (uuidlib.str u) ]} : row)) w =
  (Ok ({[ uuid_column_name :=
            VStr (uuidlib.str (uuidlib.UUID (fst (os.urandom 16 (random w))))) ]}
         : row),
   {| self := self w; random := snd (os.urandom 16 (random w)) |}).
Proof. reflexivity. Qed.

Lemma for_each_uuid (uuid_column_name : string) (l : list row) (w : world) :
  for_each (fun _ : row =>
              let* u := uuidlib.uuid4 in
              ret ({[ uuid_column_name := VStr (uuidlib.str u) ]} : row)) l w =
  (Ok ((fun u => ({[ uuid_column_name := VStr (uuidlib.str u) ]} : row))
         <$> fst (uuids (length l) (random w))),
   {| self := self w; random := snd (uuids (length l) (random w)) |}).
Proof.
  revert w. induction l as [|x l IH]; intros w.
  - by destruct w.
  - cbn [for_each length uuids]. unfold bind at 1. rewrite uuid_cell_run.
    unfold bind at 1. rewrite IH. cbn [self random].
    destruct (os.urandom 16 (random w)) as [b e'].
    cbn [fst snd]. by destruct (uuids (length l) e').
Qed.

Lemma zip_with_uuid_cells (uuid_column_name : string) (us : list N) (l : list row) :
  zip_with (fun (out x : row) => out ∪ x)
           ((fun u => ({[ uuid_column_name := VStr (uuidlib.str u) ]} : row)) <$> us) l =
  zip_with (fun u (x : row) => <[uuid_column_name := VStr (uuidlib.str u)]> x) us l.
Proof.
  revert l. induction us as [|u us IH]; intros [|x l]; simpl; try done.
  by rewrite IH, insert_union_singleton_l.
Qed.

Lemma uuid_run (uuid_column_name : string) (w : world) :
  uuid uuid_column_name w =
  (Ok (uuid_outcome uuid_column_name (dataset (self w)) (random w)),
   {| self := self w;
      random := match rows (dataset (self w)) with
                | [] => random w
                | l => snd (uuids (length l) (random w))
                end |}).
Proof.
  unfold uuid, uuid_outcome, memory, timer, bind at 1, get_dataset, datasets.map.
  destruct (rows (dataset (self w))) as [|x l] eqn:Hrows.
  - by destruct w.
  - unfold bind at 1. rewrite for_each_uuid.
    unfold ret. do 3 f_equal.
    + pose proof (uuids_canonical (length (x :: l)) (random w)) as [Hlen _].
      destruct (uuids (length (x :: l)) (random w)).1 as [|u us]; [done|].
      simpl fmap. by rewrite new_columns_singleton.
    + apply zip_with_uuid_cells.
Qed.

(** ** The held reference and the random source *)

Lemma reads_dataset_only_deterministic {A} (c : M A) :
  reads_dataset_only c -> deterministic c.
Proof.
  intros [F HF]. split.
  - intros w w' Hw. by rewrite !HF, Hw.
  - intros w. by rewrite !HF.
Qed.

Lemma reads_dataset_only_state {A} (c : M A) (w : world) :
  reads_dataset_only c -> snd (c w) = w.
Proof. intros [F HF]. by rewrite HF. Qed.

Lemma call_run (repr : value -> pystr) (hash_column_name uuid_column_name : string)
    (w : world) :
  __call__ repr hash_column_name uuid_column_name w =
  match hash_outcome repr "document" hash_column_name (dataset (self w)) with
  | Ok hashed =>
      let d := uuid_outcome uuid_column_name hashed (random w) in
      (Ok d,
       {| self := {| dataset := d |};
          random := match rows hashed with
                    | [] => random w
                    | l => snd (uuids (length l) (random w))
                    end |})
  | Raise e => (Raise e, w)
  end.
Proof.
  unfold __call__, memory, timer, bind at 1. rewrite hash_run.
  destruct (hash_outcome _ _ _ _) as [hashed|e]; [|done].
  unfold bind at 1, set_dataset. unfold bind at 1. rewrite uuid_run.
  reflexivity.
Qed.

Section Reference.
Variable repr : value -> pystr.
Variable ucd : unicode.database.

(** C4, as the code has it.  Each of the nine transformations returns its
    result and leaves the formatter's dataset reference as it found it;
    only the combined call assigns the reference, and when it returns a
    dataset the reference is that dataset; when it raises, the state is
    as before the call. *)
Theorem transformations_leave_reference (w : world)
    (c target old_name new_name : string) (normalized : option string)
    (condition : row -> result bool) (new_type : value -> result value)
    (v : value) :
  self (snd (hash repr c target w)) = self w /\
  self (snd (uuid target w)) = self w /\
  self (snd (normalize_text ucd c normalized w)) = self w /\
  self (snd (filter_rows condition w)) = self w /\
  self (snd (rename_column old_name new_name w)) = self w /\
  self (snd (drop_column c w)) = self w /\
  self (snd (add_constant_column target v w)) = self w /\
  self (snd (convert_column_type c new_type w)) = self w /\
  self (snd (fill_missing c v w)) = self w /\
  match __call__ repr target new_name w with
  | (Ok d, w') => dataset (self w') = d
  | (Raise _, w') => w' = w
  end.
Proof.
  rewrite hash_run, uuid_run, normalize_text_run, filter_rows_run,
    add_constant_column_run, convert_column_type_run, fill_missing_run, call_run.
  rewrite (reads_dataset_only_state _ w (rename_column_run old_name new_name)).
  rewrite (reads_dataset_only_state _ w (drop_column_run c)).
  repeat split.
  by destruct (hash_outcome _ _ _ _).
Qed.
End Reference.

(** C4, as stated, fails: after [hash] on the dataset of the tests the
    formatter still holds the dataset it was built with, not the result. *)
Lemma hash_result_not_held :
  let w := wrapping sample_dataset example_source in
  exists ds',
    fst (hash repr_plain "document" "hash" w) = Ok ds' /\
    dataset (self (snd (hash repr_plain "document" "hash" w))) = sample_dataset /\
    dataset (self (snd (hash repr_plain "document" "hash" w))) <> ds'.
Proof.
  intros w. rewrite hash_run. cbn [fst snd].
  destruct (hash_outcome repr_plain "document" "hash" (dataset (self w)))
    as [ds'|e] eqn:E; [|by vm_compute in E].
  exists ds'. split; [done|]. split; [done|].
  intros H.
  assert (match hash_outcome repr_plain "document" "hash" (dataset (self w)) with
          | Ok d => column_names d
          | Raise _ => []
          end = ["document"; "hash"]) as Hn by (vm_compute; reflexivity).
  rewrite E, <- H in Hn. discriminate Hn.
Qed.

(** ** Determinism *)

Section Determinism.
Variable repr : value -> pystr.
Variable ucd : unicode.database.

(** C3, as the code has it.  Every operation other than [uuid] and the
    combined call (which calls [uuid]) is deterministic: its outcome is a
    function of the wrapped dataset and of its arguments. *)
Theorem operations_without_uuid_deterministic
    (c target old_name new_name : string) (normalized : option string)
    (condition : row -> result bool) (new_type : value -> result value)
    (v : value) :
  deterministic (hash repr c target) /\
  deterministic (normalize_text ucd c normalized) /\
  deterministic (filter_rows condition) /\
  deterministic (rename_column old_name new_name) /\
  deterministic (drop_column c) /\
  deterministic (add_constant_column target v) /\
  deterministic (convert_column_type c new_type) /\
  deterministic (fill_missing c v) /\
  deterministic (compute_summary c).
Proof.
  split; [apply reads_dataset_only_deterministic; eexists; apply hash_run|].
  split; [apply reads_dataset_only_deterministic; eexists; apply normalize_text_run|].
  split; [apply reads_dataset_only_deterministic; eexists; apply filter_rows_run|].
  split; [apply reads_dataset_only_deterministic, rename_column_run|].
  split; [apply reads_dataset_only_deterministic, drop_column_run|].
  split; [apply reads_dataset_only_deterministic; eexists;
          apply add_constant_column_run|].
  split; [apply reads_dataset_only_deterministic; eexists;
          apply convert_column_type_run|].
  split; [apply reads_dataset_only_deterministic; eexists; apply fill_missing_run|].
  apply reads_dataset_only_deterministic; eexists; apply compute_summary_run.
Qed.
End Determinism.

(** C3, as stated, fails for [uuid]: two runs in a row on the dataset of
    the tests return different identifiers. *)
Lemma uuid_not_deterministic : ~ deterministic (uuid "uuid").
Proof.
  intros [_ H]. specialize (H (wrapping sample_dataset example_source)).
  apply (f_equal (column_of "uuid")) in H.
  rewrite !uuid_run in H. vm_compute in H. discriminate H.
Qed.

(** ** Filtering *)

Lemma collect_total_function {A B} (p : A -> B) (l : list A) :
  collect (fun a => Ok (p a)) l = Ok (List.map p l).
Proof. induction l as [|a l IH]; simpl; [done|]. by rewrite IH. Qed.

Lemma select_kept (p : row -> bool) (pre l : list row) :
  omap (fun i => (pre ++ l) !! i)
       (List.map fst
          (List.filter snd (combine (seq (length pre) (length l)) (List.map p l))))
  = List.filter p l.
Proof.
  revert pre. induction l as [|x l IH]; intros pre; [done|].
  cbn [length seq List.map combine List.filter snd].
  specialize (IH (pre ++ [x])).
  rewrite <- app_assoc, length_app in IH. cbn [app length] in IH.
  rewrite Nat.add_1_r in IH.
  destruct (p x); [|exact IH].
  cbn [List.map fst]. change (omap ?f (?i :: ?js)) with
    (match f i with Some y => y :: omap f js | None => omap f js end).
  cbv beta. rewrite list_lookup_middle by done. by rewrite IH.
Qed.

Lemma filter_sublist {A} (p : A -> bool) (l : list A) :
  sublist (List.filter p l) l.
Proof.
  induction l as [|a l IH]; simpl; [constructor|].
  destruct (p a); by constructor.
Qed.

(** C7. For a dataset [ds] and a predicate [p] on rows, [filter_rows p]
    returns the dataset with the same columns whose rows are exactly the
    rows of [ds] on which [p] is true, in the order they have in [ds] and
    as they are in [ds]. *)
Theorem filter_rows_keeps_satisfying (ds : Dataset) (p : row -> bool)
    (e : os.entropy) :
  exists ds',
    filter_rows (fun x => Ok (p x)) (wrapping ds e) = (Ok ds', wrapping ds e) /\
    column_names ds' = column_names ds /\
    rows ds' = List.filter p (rows ds) /\
    sublist (rows ds') (rows ds) /\
    forall x, x ∈ rows ds' <-> x ∈ rows ds /\ p x = true.
Proof.
  rewrite filter_rows_run. unfold filter_rows_outcome. cbn [wrapping self dataset].
  rewrite collect_total_function. cbn [rbind].
  eexists. split; [reflexivity|]. cbn [datasets.select column_names rows].
  assert (omap (fun i => rows ds !! i) (kept_indices (List.map p (rows ds)))
          = List.filter p (rows ds)) as ->.
  { unfold kept_indices. rewrite length_map. apply (select_kept p [] (rows ds)). }
  split; [done|]. split; [done|]. split; [apply filter_sublist|].
  intros x. rewrite !list_elem_of_In. apply filter_In.
Qed.

(** ** Normalisation *)

Lemma set_column_names_incl (target : string) (g : row -> result value)
    (ds ds' : Dataset) (c : string) :
  set_column target g ds = Ok ds' -> c ∈ column_names ds -> c ∈ column_names ds'.
Proof.
  unfold set_column. destruct (rows ds) as [|x0 l]; [by intros [= <-]|].
  destruct (collect g (x0 :: l)) as [vs|e]; simpl; [|done].
  intros [= <-] Hc. simpl. apply elem_of_app. by left.
Qed.

Lemma set_column_twice (target : string) (g : row -> result value)
    (ds ds1 : Dataset) :
  set_column target g ds = Ok ds1 ->
  (forall x v, x ∈ rows ds -> g x = Ok v -> g (<[target := v]> x) = Ok v) ->
  set_column target g ds1 = Ok ds1.
Proof.
  unfold set_column at 1. destruct (rows ds) as [|x0 l] eqn:Hrows.
  { intros [= <-] _. unfold set_column. by rewrite Hrows. }
  destruct (collect g (x0 :: l)) as [vs|e] eqn:Hc; simpl; [|done].
  intros [= <-] Hg. apply collect_Ok in Hc.
  set (ins := fun (v : value) (x : row) => <[target := v]> x).
  assert (Forall2 (fun x v => g x = Ok v) (zip_with ins vs (x0 :: l)) vs
          /\ zip_with ins vs (zip_with ins vs (x0 :: l)) = zip_with ins vs (x0 :: l))
    as [Hc' Hzip].
  { assert (forall x, x ∈ x0 :: l -> forall v, g x = Ok v -> g (ins v x) = Ok v)
      as Hg' by (intros; by apply Hg).
    clear Hg Hrows. induction Hc as [|x v xs vs' Hxv _ IH]; [by split|].
    destruct IH as [IH1 IH2]; [intros; apply Hg'; [by right|done]|].
    split; simpl.
    - constructor; [|done]. apply Hg'; [by left|done].
    - rewrite IH2. unfold ins at 1 2. by rewrite insert_insert_eq. }
  unfold set_column. cbn [rows column_names].
  destruct (zip_with ins vs (x0 :: l)) as [|y ys] eqn:Hz.
  { destruct vs; [by inversion Hc|done]. }
  apply collect_Ok in Hc'. rewrite Hc'. cbn [rbind].
  change (fun (v : value) (x : row) => <[target := v]> x) with ins.
  rewrite Hzip.
  do 2 f_equal. rewrite <- app_assoc. f_equal.
  destruct (decide (target ∈ column_names ds)) as [Hin|Hin]; simpl.
  - by rewrite decide_True by (rewrite app_nil_r; done).
  - rewrite decide_True; [done|]. apply elem_of_app. right. by left.
Qed.

Section Normalisation.
Variable ucd : unicode.database.
Hypothesis ucd_stable : stable_lowercase ucd.

Lemma normalize_cell_fixed (column_name target : string) (x : row) (v : value) :
  let g := cell column_name
             (fun u => rbind (normalize ucd u) (fun s => Ok (VStr s))) in
  g x = Ok v -> g (<[target := v]> x) = Ok v.
Proof.
  intros g. unfold g, cell.
  destruct (x !! column_name) as [u|] eqn:Hu; [|done].
  destruct u; simpl; try done. intros [= <-].
  destruct (decide (target = column_name)) as [->|Hne].
  - rewrite lookup_insert_eq. simpl. by rewrite (lower_strip_fixed ucd s ucd_stable).
  - rewrite lookup_insert_ne, Hu by done. done.
Qed.

(** C5. On a dataset whose column [C] holds strings, [normalize_text C]
    succeeds, and applying it again to its result returns that result:
    lower-casing and stripping text that is already lower-cased and
    stripped changes nothing.  This holds for every choice of the target
    column, the default included. *)
Theorem normalize_text_idempotent (ds : Dataset) (C : string)
    (normalized : option string) (e e' : os.entropy) :
  is_dataset ds ->
  C ∈ column_names ds ->
  (forall x v, x ∈ rows ds -> x !! C = Some v -> is_str v = true) ->
  exists ds1,
    fst (normalize_text ucd C normalized (wrapping ds e)) = Ok ds1 /\
    fst (normalize_text ucd C normalized (wrapping ds1 e')) = Ok ds1.
Proof.
  intros Hds HC Hstr. rewrite normalize_text_run. cbn [fst wrapping self dataset].
  unfold normalize_text_outcome, guarded.
  rewrite decide_False by (intros Hn; by apply Hn).
  set (g := cell C (fun u => rbind (normalize ucd u) (fun s => Ok (VStr s)))).
  destruct (set_column_total (target_of C normalized) g ds) as [ds1 Hds1].
  { apply Forall_forall. intros x Hx.
    destruct (dataset_row ds x C Hds Hx HC) as (v & Hv & _).
    specialize (Hstr x v Hx Hv). unfold g, cell. rewrite Hv.
    destruct v; try done. simpl. by eexists. }
  exists ds1. split; [done|].
  rewrite normalize_text_run. cbn [fst wrapping self dataset].
  unfold normalize_text_outcome, guarded.
  rewrite decide_False
    by (intros Hn; apply Hn; by eapply set_column_names_incl).
  apply (set_column_twice _ g ds ds1 Hds1).
  intros x v _. apply normalize_cell_fixed.
Qed.
End Normalisation.

Lemma ascii_letters_stable : stable_lowercase unicode.ascii_letters.
Proof.
  split; [|split; split; done].
  intros c d Hc Hd. simpl in Hd.
  destruct ((65 <=? c) && (c <=? 90)) eqn:E; apply list_elem_of_singleton in Hd; subst d.
  - apply andb_true_iff in E as [E1 E2].
    apply N.leb_le in E1, E2.
    split; [unfold unicode.capital_sigma; lia|].
    simpl. replace ((65 <=? c + 32) && (c + 32 <=? 90)) with false; [done|].
    symmetry. apply andb_false_iff. right. apply N.leb_gt. lia.
  - split; [done|]. simpl. by rewrite E.
Qed.

Lemma normalize_text_idempotent_witness :
  let ds := {| column_names := ["document"];
               rows := [ {[ "document" := VStr (codepoints "  This is a TEST. ") ]} ] |} in
  exists ds1,
    fst (normalize_text unicode.ascii_letters "document" None
           (wrapping ds example_source)) = Ok ds1 /\
    fst (normalize_text unicode.ascii_letters "document" None
           (wrapping ds1 example_source)) = Ok ds1 /\
    column_of "document" (Ok ds1) = [Some (VStr (codepoints "this is a test."))].
Proof.
  intros ds.
  assert (is_dataset ds) as Hds by compute_done.
  assert ("document" ∈ column_names ds) as HC by compute_done.
  assert (forall x v, x ∈ rows ds -> x !! "document" = Some v -> is_str v = true)
    as Hstr.
  { intros x v Hx%list_elem_of_singleton Hv. subst x.
    apply lookup_singleton_Some in Hv as [_ <-]. reflexivity. }
  destruct (normalize_text_idempotent unicode.ascii_letters ascii_letters_stable
              ds "document" None example_source example_source Hds HC Hstr)
    as (ds1 & H1 & H2).
  exists ds1. split; [exact H1|]. split; [exact H2|].
  rewrite <- H1. vm_compute. reflexivity.
Defined.

(** ** Summary statistics *)



(** ** Writing a column that exists *)



Lemma uuid_outcome_rows (uuid_column_name : string) (ds : Dataset) (e : os.entropy) :
  length (rows (uuid_outcome uuid_column_name ds e)) = length (rows ds) /\
  forall i x, rows ds !! i = Some x ->
    exists u,
      rows (uuid_outcome uuid_column_name ds e) !! i
      = Some (<[uuid_column_name := VStr (uuidlib.str u)]> x) /\
      uuidlib.canonical (uuidlib.str u) = true.
Proof.
  unfold uuid_outcome. destruct (rows ds) as [|x0 l] eqn:E.
  - rewrite E. split; [done|]. intros i x. by rewrite lookup_nil.
  - cbn [rows]. destruct (uuids_canonical (length (x0 :: l)) e) as [Hlen Hall].
    split; [rewrite length_zip_with; lia|].
    intros i x Hx.
    destruct (lookup_lt_is_Some_2 (uuids (length (x0 :: l)) e).1 i) as [u Hu].
    { rewrite Hlen. by eapply lookup_lt_Some. }
    exists u. split.
    + rewrite lookup_zip_with, Hu. simpl. by rewrite Hx.
    + by apply (proj1 (Forall_lookup _ _) Hall i u).
Qed.

Lemma uuid_outcome_names (uuid_column_name : string) (ds : Dataset) (e : os.entropy) :
  column_names (uuid_outcome uuid_column_name ds e) =
  match rows ds with
  | [] => column_names ds
  | _ => column_names ds ++
         (if decide (uuid_column_name ∈ column_names ds) then []
          else [uuid_column_name])
  end.
Proof. unfold uuid_outcome. by destruct (rows ds). Qed.


Section Overwriting.
Variable repr : value -> pystr.
Variable ucd : unicode.database.
Hypothesis repr_encodable : forall v, forallb codec.is_scalar (repr v) = true.

End Overwriting.


(** ** Which values the row functions accept *)

Section Totality.
Variable repr : value -> pystr.
Variable ucd : unicode.database.
Hypothesis repr_encodable : forall v, forallb codec.is_scalar (repr v) = true.

Lemma normalize_raises (v : value) :
  is_str v = false ->
  normalize ucd v =
  Raise (AttributeError ("'" +:+ type_name v +:+ "' object has no attribute 'lower'")).
Proof. by destruct v. Qed.

(** C9. [hash] succeeds on a column of the dataset whatever the type of
    its values (none, booleans, numbers, strings, lists), because the
    value goes through [str] before it is encoded.  [normalize_text]
    calls [lower] on the value itself: it succeeds when every value of
    the column is a string and raises [AttributeError] as soon as one is
    not. *)
Theorem hash_total_normalize_text_partial (ds : Dataset) (C T : string)
    (normalized : option string) (e : os.entropy) :
  is_dataset ds ->
  C ∈ column_names ds ->
  (exists ds', fst (hash repr C T (wrapping ds e)) = Ok ds')
  /\ ((forall x v, x ∈ rows ds -> x !! C = Some v -> is_str v = true) ->
      exists ds', fst (normalize_text ucd C normalized (wrapping ds e)) = Ok ds')
  /\ ((exists x v, x ∈ rows ds /\ x !! C = Some v /\ is_str v = false) ->
      exists msg,
        fst (normalize_text ucd C normalized (wrapping ds e))
        = Raise (AttributeError msg)).
Proof.
  intros Hds HC. split; [|split].
  - rewrite hash_run. cbn [fst wrapping self dataset].
    unfold hash_outcome, guarded. rewrite decide_False by (intros Hn; by apply Hn).
    apply set_column_total, hash_cell_total; done.
  - intros Hstr. rewrite normalize_text_run. cbn [fst wrapping self dataset].
    unfold normalize_text_outcome, guarded.
    rewrite decide_False by (intros Hn; by apply Hn).
    apply set_column_total, Forall_forall. intros x Hx.
    destruct (dataset_row ds x C Hds Hx HC) as (v & Hv & _).
    specialize (Hstr x v Hx Hv). unfold cell. rewrite Hv.
    destruct v; try done. simpl. by eexists.
  - intros (x & v & Hx & Hv & Hns).
    rewrite normalize_text_run. cbn [fst wrapping self dataset].
    unfold normalize_text_outcome, guarded.
    rewrite decide_False by (intros Hn; by apply Hn).
    set (g := cell C (fun u => rbind (normalize ucd u) (fun s => Ok (VStr s)))).
    destruct (set_column (target_of C normalized) g ds) as [ds'|err] eqn:E.
    + exfalso.
      apply list_elem_of_lookup_1 in Hx as [i Hi].
      destruct (proj2 (set_column_rows _ _ _ _ E) i x Hi) as (v' & Hg & _).
      unfold g, cell in Hg. rewrite Hv, (normalize_raises v Hns) in Hg. done.
    + destruct (set_column_Raise _ _ _ _ E) as (y & Hy & Hg).
      destruct (dataset_row ds y C Hds Hy HC) as (u & Hu & _).
      unfold g, cell in Hg. rewrite Hu in Hg.
      destruct u; simpl in Hg; try (injection Hg as <-; by eexists). done.
Qed.
End Totality.

Lemma hash_total_normalize_text_partial_witness :
  (exists ds',
     fst (hash repr_plain "some_column" "hash" (wrapping some_dataset example_source))
     = Ok ds' /\
     column_of "hash" (Ok ds') =
     [ Some (VStr (hashlib.sha256_hexdigest (codepoints "1")));
       Some (VStr (hashlib.sha256_hexdigest (codepoints "None")));
       Some (VStr (hashlib.sha256_hexdigest (codepoints "3"))) ])
  /\ exists msg,
       fst (normalize_text unicode.ascii_letters "some_column" None
              (wrapping some_dataset example_source))
       = Raise (AttributeError msg).
Proof.
  assert (is_dataset some_dataset) as Hds by compute_done.
  assert ("some_column" ∈ column_names some_dataset) as HC by compute_done.
  destruct (hash_total_normalize_text_partial repr_plain unicode.ascii_letters
              repr_plain_encodable some_dataset "some_column" "hash" None
              example_source Hds HC) as ((ds' & Hhash) & _ & Hnorm).
  split.
  - exists ds'. split; [exact Hhash|]. rewrite <- Hhash. vm_compute. reflexivity.
  - apply Hnorm. exists {[ "some_column" := VInt 1 ]}, (VInt 1).
    split; [by left|]. split; reflexivity.
Defined.

(** ** The combined call *)

Section Call.
Variable repr : value -> pystr.
Hypothesis repr_encodable : forall v, forallb codec.is_scalar (repr v) = true.

(** C8, as the code has it.  On a dataset that has a ["document"] column,
    called with two different column names, the formatter hashes the
    ["document"] column, assigns the result to its reference, adds the
    identifiers to that dataset, assigns the result to its reference and
    returns it.  Every row of the returned dataset holds, under the hash
    name, the SHA-256 digest of its document and, under the uuid name, a
    36-character canonical identifier; when the dataset has rows both
    names are columns of the result. *)
Theorem call_hashes_then_identifies (ds : Dataset)
    (hash_column_name uuid_column_name : string) (e : os.entropy) :
  is_dataset ds ->
  "document" ∈ column_names ds ->
  hash_column_name <> uuid_column_name ->
  exists hashed d w',
    hash repr "document" hash_column_name (wrapping ds e) = (Ok hashed, wrapping ds e) /\
    fst (uuid uuid_column_name (wrapping hashed e)) = Ok d /\
    __call__ repr hash_column_name uuid_column_name (wrapping ds e) = (Ok d, w') /\
    dataset (self w') = d /\
    length (rows d) = length (rows ds) /\
    (rows ds <> [] ->
     hash_column_name ∈ column_names d /\ uuid_column_name ∈ column_names d) /\
    forall i x, rows ds !! i = Some x ->
      exists x' v data s,
        rows d !! i = Some x' /\
        x !! "document" = Some v /\
        codec.encode (str repr v) = Ok data /\
        x' !! hash_column_name = Some (VStr (hashlib.sha256_hexdigest data)) /\
        x' !! uuid_column_name = Some (VStr s) /\
        uuidlib.canonical s = true /\
        length s = 36%nat.
Proof.
  intros Hds HC Hne.
  rewrite call_run, hash_run. cbn [fst wrapping self dataset random].
  unfold hash_outcome, guarded. rewrite decide_False by (intros Hn; by apply Hn).
  set (g := cell "document"
              (fun v => rbind (generate_hash repr v) (fun d => Ok (VStr d)))).
  destruct (set_column_total hash_column_name g ds
              (hash_cell_total repr repr_encodable ds "document" Hds HC))
    as [hashed Hhashed].
  rewrite Hhashed. cbv zeta.
  eexists hashed, _, _. split; [reflexivity|].
  rewrite uuid_run. cbn [fst wrapping self dataset random].
  split; [reflexivity|]. split; [reflexivity|]. split; [reflexivity|].
  destruct (set_column_rows _ _ _ _ Hhashed) as [Hlen Hrows].
  destruct (uuid_outcome_rows uuid_column_name hashed e) as [Hlen' Hrows'].
  split; [congruence|]. split.
  - intros Hnonempty.
    assert (rows hashed <> []) as Hnonempty'.
    { intros E. apply Hnonempty. apply length_zero_iff_nil.
      rewrite <- Hlen, E. done. }
    rewrite uuid_outcome_names. destruct (rows hashed) as [|y ys]; [done|].
    rewrite (set_column_names _ _ _ _ Hhashed Hnonempty).
    split.
    + apply elem_of_app. left. apply elem_of_app.
      destruct (decide (hash_column_name ∈ column_names ds));
        [by left | right; by left].
    + destruct (decide (uuid_column_name ∈ _)) as [Hin|Hin].
      * apply elem_of_app. by left.
      * apply elem_of_app. right. by left.
  - intros i x Hx.
    destruct (Hrows i x Hx) as (h & Hg & Hx1).
    destruct (Hrows' i _ Hx1) as (u & Hx2 & Hu).
    destruct (dataset_row_at ds i x "document" Hds Hx HC) as (v & Hv & Htext).
    destruct (str_encodable repr repr_encodable v Htext) as [data Hdata].
    unfold g, cell, generate_hash in Hg. rewrite Hv, Hdata in Hg.
    simpl in Hg. injection Hg as <-.
    eexists _, v, data, (uuidlib.str u). split; [exact Hx2|].
    split; [done|]. split; [done|]. split.
    { rewrite lookup_insert_ne by done. apply lookup_insert_eq. }
    split; [apply lookup_insert_eq|]. split; [done|].
    by apply canonical_length.
Qed.
End Call.

Lemma call_hashes_then_identifies_witness :
  exists d w',
    __call__ repr_plain "hash" "uuid" (wrapping sample_dataset example_source)
    = (Ok d, w') /\
    dataset (self w') = d /\
    column_names d = ["document"; "hash"; "uuid"] /\
    column_of "hash" (Ok d) =
    [ Some (VStr (codepoints
        "ec7f4feddd1c1349ad5a4d9c913a5c4e21a226e6719cd1b2805225df7075d22f"));
      Some (VStr (hashlib.sha256_hexdigest (codepoints "Another test document."))) ] /\
    column_of "uuid" (Ok d) =
    [ Some (VStr (codepoints "0b30557a-9fc4-490e-b358-7da2c7ec1136"));
      Some (VStr (codepoints "5b80a5ca-ef14-495e-83a8-cdf2173c6186")) ].
Proof.
  assert (is_dataset sample_dataset) as Hds by compute_done.
  assert ("document" ∈ column_names sample_dataset) as HC by compute_done.
  assert ("hash" <> "uuid") as Hne by discriminate.
  destruct (call_hashes_then_identifies repr_plain repr_plain_encodable
              sample_dataset "hash" "uuid" example_source Hds HC Hne)
    as (hashed & d & w' & _ & _ & Hcall & Hself & _).
  exists d, w'. split; [exact Hcall|]. split; [exact Hself|].
  pose proof (f_equal (fun p => names_of (fst p)) Hcall) as Hn.
  pose proof (f_equal (fun p => column_of "hash" (fst p)) Hcall) as Hh.
  pose proof (f_equal (fun p => column_of "uuid" (fst p)) Hcall) as Hu.
  rewrite call_run in Hn, Hh, Hu.
  cbn [fst names_of] in Hn. cbn [fst] in Hh, Hu.
  rewrite <- Hn, <- Hh, <- Hu.
  split; [|split]; vm_compute; reflexivity.
Defined.

(** C8, as stated, fails in two ways.  With the same name for both
    columns the identifiers replace the digests (here the first row's
    cell is not the digest of its document); and the source column is
    always ["document"]: on a dataset without it the call raises. *)
Lemma call_counterexamples :
  (exists d,
     fst (__call__ repr_plain "id" "id" (wrapping sample_dataset example_source))
     = Ok d /\
     column_names d = ["document"; "id"] /\
     column_of "id" (Ok d) <>
     [ Some (VStr (hashlib.sha256_hexdigest (codepoints "This is a test document.")));
       Some (VStr (hashlib.sha256_hexdigest (codepoints "Another test document."))) ])
  /\ __call__ repr_plain "hash" "uuid" (wrapping numerical_dataset example_source)
     = (Raise (ValueError "Column 'document' does not exist in the dataset."),
        wrapping numerical_dataset example_source).
Proof.
  split.
  - rewrite call_run. cbn [fst wrapping self dataset random].
    destruct (hash_outcome repr_plain "document" "id" sample_dataset)
      as [hashed|err] eqn:E; [|by vm_compute in E].
    cbv zeta. cbn [fst]. eexists. split; [reflexivity|].
    assert (match hash_outcome repr_plain "document" "id" sample_dataset with
            | Ok hashed =>
                Some (names_of (Ok (uuid_outcome "id" hashed example_source)),
                      column_of "id" (Ok (uuid_outcome "id" hashed example_source)))
            | Raise _ => None
            end
            = Some (["document"; "id"],
                    [ Some (VStr (codepoints "0b30557a-9fc4-490e-b358-7da2c7ec1136"));
                      Some (VStr (codepoints "5b80a5ca-ef14-495e-83a8-cdf2173c6186")) ]))
      as Hc by (vm_compute; reflexivity).
    rewrite E in Hc. injection Hc as Hn Hc.
    split; [exact Hn|]. unfold column_of. rewrite Hc. vm_compute. discriminate.
  - rewrite call_run. vm_compute. reflexivity.
Qed.

(** ** The tests of the repository, run on the embedding *)

Example test_hash :
  let formatted := hash repr_plain "document" "hash"
                     (wrapping sample_dataset example_source) in
  "hash" ∈ names_of (fst formatted) /\
  at_row 0 "hash" formatted =
  Some (VStr (hashlib.sha256_hexdigest (codepoints "This is a test document."))).
Proof. split; [compute_done | vm_compute; reflexivity]. Qed.

Example test_uuid :
  let formatted := uuid "uuid" (wrapping sample_dataset example_source) in
  "uuid" ∈ names_of (fst formatted) /\
  exists s, at_row 0 "uuid" formatted = Some (VStr s) /\ length s = 36%nat.
Proof. split; [compute_done | eexists; split; vm_compute; reflexivity]. Qed.

Example test_normalize_text :
  let formatted := normalize_text unicode.ascii_letters "document"
                     (Some "normalized_text")
                     (wrapping sample_dataset example_source) in
  "normalized_text" ∈ names_of (fst formatted) /\
  at_row 0 "normalized_text" formatted =
  Some (VStr (codepoints "this is a test document.")).
Proof. split; [compute_done | vm_compute; reflexivity]. Qed.

Example test_filter_rows :
  let formatted := filter_rows mentions_another
                     (wrapping sample_dataset example_source) in
  (length <$> (match fst formatted with Ok d => Some (rows d) | Raise _ => None end))
  = Some 1%nat /\
  at_row 0 "document" formatted = Some (VStr (codepoints "Another test document.")).
Proof. split; vm_compute; reflexivity. Qed.

Example test_rename_column :
  let formatted := rename_column "document" "doc"
                     (wrapping sample_dataset example_source) in
  names_of (fst formatted) = ["doc"] /\
  at_row 0 "doc" formatted = Some (VStr (codepoints "This is a test document.")).
Proof. split; vm_compute; reflexivity. Qed.

Example test_drop_column :
  let formatted := drop_column "document" (wrapping sample_dataset example_source) in
  fst formatted = Ok {| column_names := []; rows := [∅; ∅] |}.
Proof. vm_compute. reflexivity. Qed.

Example test_add_constant_column :
  let formatted := add_constant_column "new_column"
                     (VStr (codepoints "constant_value"))
                     (wrapping sample_dataset example_source) in
  "new_column" ∈ names_of (fst formatted) /\
  at_row 0 "new_column" formatted = Some (VStr (codepoints "constant_value")).
Proof. split; [compute_done | vm_compute; reflexivity]. Qed.

Example test_convert_column_type :
  at_row 0 "number_str"
    (convert_column_type "number_str" builtin_int
       (wrapping number_dataset example_source))
  = Some (VInt 1).
Proof. vm_compute. reflexivity. Qed.

Example test_fill_missing :
  at_row 1 "some_column"
    (fill_missing "some_column" (VInt 0) (wrapping some_dataset example_source))
  = Some (VInt 0).
Proof. vm_compute. reflexivity. Qed.

Example test_call :
  let formatted := __call__ repr_plain "hash" "uuid"
                     (wrapping sample_dataset example_source) in
  names_of (fst formatted) = ["document"; "hash"; "uuid"] /\
  at_row 0 "hash" formatted =
  Some (VStr (hashlib.sha256_hexdigest (codepoints "This is a test document."))) /\
  exists s, at_row 0 "uuid" formatted = Some (VStr s) /\ length s = 36%nat.
Proof.
  split; [vm_compute; reflexivity|]. split; [vm_compute; reflexivity|].
  eexists; split; vm_compute; reflexivity.
Qed.

Example test_init :
  __init__ (ADataset sample_dataset) = Ok {| dataset := sample_dataset |} /\
  __init__ (AValue (VList [])) =
  Raise (TypeError "Expected a Hugging Face `datasets.Dataset` object.").
Proof. split; reflexivity. Qed.

(** * Further properties of the methods *)

(** ** Renaming and dropping columns *)

Lemma rename_column_ok (old_column_name new_column_name : string) (w : world) :
  old_column_name ∈ column_names (dataset (self w)) ->
  new_column_name ∉ column_names (dataset (self w)) ->
  new_column_name <> EmptyString ->
  rename_column old_column_name new_column_name w =
  (Ok {| column_names :=
           (fun c => if decide (c = old_column_name) then new_column_name else c)
             <$> column_names (dataset (self w));
         rows := datasets.rename_key old_column_name new_column_name
                   <$> rows (dataset (self w)) |}, w).
Proof.
  intros Hold Hnew Hne.
  unfold rename_column, datasets.rename_column, bind, get_dataset, raise, ret.
  rewrite decide_False by (intros Hn; by apply Hn).
  rewrite decide_False by (intros Hn; by apply Hn).
  rewrite decide_False by done. by rewrite decide_False by done.
Qed.

Lemma drop_column_ok (column_name : string) (w : world) :
  column_name ∈ column_names (dataset (self w)) ->
  drop_column column_name w =
  (Ok {| column_names :=
           List.filter (fun c => bool_decide (c ∉ [column_name]))
                       (column_names (dataset (self w)));
         rows := (fun x : row => delete column_name x) <$> rows (dataset (self w)) |},
   w).
Proof.
  intros Hin.
  unfold drop_column, datasets.remove_columns, bind, get_dataset, raise, ret.
  rewrite decide_False by (intros Hn; by apply Hn).
  cbn [List.filter]. rewrite bool_decide_eq_false_2 by (intros Hn; by apply Hn).
  reflexivity.
Qed.

Lemma rename_key_lookup (old new : string) (x : row) (v : value) :
  x !! old = Some v -> old <> new ->
  datasets.rename_key old new x !! new = Some v /\
  datasets.rename_key old new x !! old = None /\
  forall k, k <> old -> k <> new -> datasets.rename_key old new x !! k = x !! k.
Proof.
  intros Hv Hne. unfold datasets.rename_key. rewrite Hv.
  split; [apply lookup_insert_eq|]. split.
  - rewrite lookup_insert_ne by done. apply lookup_delete_eq.
  - intros k Hk1 Hk2. rewrite lookup_insert_ne by done. by apply lookup_delete_ne.
Qed.

Lemma renamed_names (old new : string) (names : list string) :
  old ∈ names -> new ∉ names -> old <> new ->
  let names' := (fun c => if decide (c = old) then new else c) <$> names in
  new ∈ names' /\ (old ∉ names') /\
  (forall j, names !! j = Some old -> names' !! j = Some new) /\
  (forall c, c <> old -> c <> new -> c ∈ names' <-> c ∈ names).
Proof.
  intros Hold Hnew Hne names'. unfold names'. repeat split.
  - apply list_elem_of_fmap. exists old. by rewrite decide_True.
  - intros [c [Hc _]]%list_elem_of_fmap. by case_decide; subst.
  - intros j Hj. rewrite list_lookup_fmap, Hj. simpl. by rewrite decide_True.
  - intros [c' [Hc' Hin]]%list_elem_of_fmap. case_decide; by subst.
  - intros Hin. apply list_elem_of_fmap. exists c. by rewrite decide_False.
Qed.

(** X1. [rename_column old new], for a column [old] of the dataset and a
    name [new] that is not one, returns a dataset with as many rows, in
    which [new] stands where [old] stood in the schema, [old] is gone,
    and every row holds under [new] what it held under [old] and is
    otherwise unchanged. *)
Theorem rename_column_moves_values (ds : Dataset) (old new : string)
    (e : os.entropy) :
  is_dataset ds ->
  old ∈ column_names ds ->
  new ∉ column_names ds ->
  new <> EmptyString ->
  exists ds',
    rename_column old new (wrapping ds e) = (Ok ds', wrapping ds e) /\
    length (column_names ds') = length (column_names ds) /\
    new ∈ column_names ds' /\
    (old ∉ column_names ds') /\
    (forall j, column_names ds !! j = Some old -> column_names ds' !! j = Some new) /\
    (forall c, c <> old -> c <> new -> c ∈ column_names ds' <-> c ∈ column_names ds) /\
    length (rows ds') = length (rows ds) /\
    forall i x, rows ds !! i = Some x ->
      exists x',
        rows ds' !! i = Some x' /\
        x' !! new = x !! old /\
        x' !! old = None /\
        forall k, k <> old -> k <> new -> x' !! k = x !! k.
Proof.
  intros Hds Hold Hnew Hne.
  assert (old <> new) as Hon by (intros ->; done).
  rewrite rename_column_ok by done. cbn [wrapping self dataset].
  eexists. split; [reflexivity|]. cbn [column_names rows].
  destruct (renamed_names old new (column_names ds) Hold Hnew Hon)
    as (H1 & H2 & H3 & H4).
  split; [by rewrite length_fmap|]. split; [done|]. split; [done|].
  split; [done|]. split; [done|]. split; [by rewrite length_fmap|].
  intros i x Hx.
  destruct (dataset_row_at ds i x old Hds Hx Hold) as (v & Hv & _).
  destruct (rename_key_lookup old new x v Hv Hon) as (K1 & K2 & K3).
  exists (datasets.rename_key old new x).
  split; [by rewrite list_lookup_fmap, Hx|]. by rewrite Hv.
Qed.

Lemma rename_column_moves_values_witness :
  exists ds',
    rename_column "document" "doc" (wrapping sample_dataset example_source)
    = (Ok ds', wrapping sample_dataset example_source) /\
    column_names ds' = ["doc"].
Proof.
  assert (is_dataset sample_dataset) as Hds by compute_done.
  assert ("document" ∈ column_names sample_dataset) as Hold by compute_done.
  assert ("doc" ∉ column_names sample_dataset) as Hnew by compute_done.
  assert ("doc" <> EmptyString) as Hne by discriminate.
  destruct (rename_column_moves_values sample_dataset "document" "doc"
              example_source Hds Hold Hnew Hne) as (ds' & Hrun & _).
  exists ds'. split; [exact Hrun|].
  pose proof (f_equal (fun p => names_of (fst p)) Hrun) as Hn.
  cbn [fst names_of] in Hn. rewrite <- Hn. vm_compute. reflexivity.
Defined.








Section Dropping.
Variable repr : value -> pystr.
Variable ucd : unicode.database.

End Dropping.


(** ** Adding a column *)






(** ** Filling missing values *)



(** ** Row functions that raise *)

Lemma collect_Raise_first {A B} (g : A -> result B) (l : list A) (e : exn) :
  collect g l = Raise e <->
  exists i a,
    l !! i = Some a /\ g a = Raise e /\
    forall j a', (j < i)%nat -> l !! j = Some a' -> exists b, g a' = Ok b.
Proof.
  induction l as [|a l IH]; simpl.
  - split; [done|]. by intros (i & a & Hi & _).
  - destruct (g a) as [b|e'] eqn:Ea; simpl.
    + destruct (collect g l) as [bs|e'] eqn:El; simpl.
      * split; [done|]. intros (i & a' & Hi & Ha' & Hbefore).
        destruct i as [|i]; [simpl in Hi; congruence|].
        assert (@Ok (list B) bs = Raise e) as Hcontra; [|done].
        apply IH. exists i, a'. split; [done|]. split; [done|].
        intros j a'' Hj Hl. apply (Hbefore (S j) a''); [lia | done].
      * split.
        -- intros [= ->]. destruct (proj1 IH eq_refl) as (i & a' & Hi & Ha' & Hb).
           exists (S i), a'. split; [done|]. split; [done|].
           intros [|j] a'' Hj Hl.
           ++ simpl in Hl. injection Hl as <-. by eexists.
           ++ apply (Hb j a''); [lia | done].
        -- intros (i & a' & Hi & Ha' & Hbefore).
           destruct i as [|i]; [simpl in Hi; congruence|].
           assert (@Raise (list B) e' = Raise e) as Hr; [|congruence].
           apply IH. exists i, a'. split; [done|]. split; [done|].
           intros j a'' Hj Hl. apply (Hbefore (S j) a''); [lia | done].
    + split.
      * intros [= ->]. exists 0%nat, a. split; [done|]. split; [done|].
        intros j a' Hj. lia.
      * intros (i & a' & Hi & Ha' & Hbefore).
        destruct i as [|i].
        -- simpl in Hi. injection Hi as <-. congruence.
        -- destruct (Hbefore 0%nat a) as [b Hb]; [lia | done | congruence].
Qed.




(** ** More on filtering *)

Lemma filter_rows_total (p : row -> bool) (w : world) :
  filter_rows (fun x => Ok (p x)) w =
  (Ok {| column_names := column_names (dataset (self w));
         rows := List.filter p (rows (dataset (self w))) |}, w).
Proof.
  rewrite filter_rows_run. unfold filter_rows_outcome.
  rewrite collect_total_function. cbn [rbind]. unfold datasets.select.
  do 3 f_equal. unfold kept_indices. rewrite length_map.
  apply (select_kept p [] (rows (dataset (self w)))).
Qed.

Lemma filter_filter {A} (p q : A -> bool) (l : list A) :
  List.filter q (List.filter p l) = List.filter (fun a => p a && q a) l.
Proof.
  induction l as [|a l IH]; [done|]. cbn [List.filter].
  destruct (p a); cbn [andb List.filter]; [|done].
  destruct (q a); by rewrite IH.
Qed.

(** X7. Filtering the result of a filter is filtering by the conjunction:
    [filter_rows q] on what [filter_rows p] returned gives what
    [filter_rows (p and q)] gives on the original dataset.  In particular
    filtering twice by the same predicate is filtering once, and a
    predicate that is true everywhere returns the dataset itself. *)
Theorem filter_rows_compose (ds : Dataset) (p q : row -> bool) (e e' : os.entropy) :
  exists ds1,
    fst (filter_rows (fun x => Ok (p x)) (wrapping ds e)) = Ok ds1 /\
    fst (filter_rows (fun x => Ok (q x)) (wrapping ds1 e'))
    = fst (filter_rows (fun x => Ok (p x && q x)) (wrapping ds e)) /\
    fst (filter_rows (fun x => Ok (p x)) (wrapping ds1 e')) = Ok ds1 /\
    fst (filter_rows (fun _ => Ok true) (wrapping ds e)) = Ok ds.
Proof.
  rewrite !filter_rows_total. cbn [fst wrapping self dataset].
  eexists. split; [reflexivity|].
  rewrite !filter_rows_total. cbn [fst wrapping self dataset column_names rows].
  rewrite !filter_filter. split; [done|]. split.
  - do 2 f_equal. apply filter_ext. intros x. by destruct (p x).
  - assert (List.filter (fun _ : row => true) (rows ds) = rows ds) as ->.
    { induction (rows ds) as [|x l IH]; [done|]. cbn. by rewrite IH. }
    by destruct ds.
Qed.

(** X8. When the condition raises on some row, [filter_rows] returns no
    dataset: it raises, and the exception is the one of the first row on
    which the condition raises.  It raises in no other case, and the
    formatter is left as it was. *)
Theorem filter_rows_raises_with_condition (ds : Dataset)
    (condition : row -> result bool) (e : os.entropy) (err : exn) :
  snd (filter_rows condition (wrapping ds e)) = wrapping ds e /\
  (fst (filter_rows condition (wrapping ds e)) = Raise err <->
   exists i x,
     rows ds !! i = Some x /\ condition x = Raise err /\
     forall j y, (j < i)%nat -> rows ds !! j = Some y -> exists b, condition y = Ok b).
Proof.
  rewrite filter_rows_run. cbn [fst snd wrapping self dataset].
  split; [done|]. unfold filter_rows_outcome.
  rewrite <- collect_Raise_first.
  destruct (collect condition (rows ds)); simpl.
  - split; intros; discriminate.
  - split; intros [= ->]; reflexivity.
Qed.

Example filter_rows_raises_on_numbers :
  fst (filter_rows mentions_another (wrapping numerical_dataset example_source))
  = Raise (KeyError "document").
Proof. vm_compute. reflexivity. Qed.

(** ** The shape of a digest *)

Lemma round_length (st : list N) (kw : N * N) :
  length (hashlib.round st kw) = length st.
Proof.
  unfold hashlib.round.
  do 9 (destruct st as [|? st]; [done|]); by destruct st.
Qed.

Lemma rounds_length (kws : list (N * N)) (st : list N) :
  length (fold_left hashlib.round kws st) = length st.
Proof.
  revert st. induction kws as [|kw kws IH]; intros st; [done|].
  cbn [fold_left]. by rewrite IH, round_length.
Qed.

Lemma compress_length (st : list N) (block : pybytes) :
  length (hashlib.compress st block) = length st.
Proof.
  unfold hashlib.compress.
  rewrite length_map, length_combine, rounds_length. lia.
Qed.

Lemma compress_all_length (blocks : list pybytes) (st : list N) :
  length (fold_left hashlib.compress blocks st) = length st.
Proof.
  revert st. induction blocks as [|b blocks IH]; intros st; [done|].
  cbn [fold_left]. by rewrite IH, compress_length.
Qed.

Lemma be_bytes_octets (width : nat) (x : N) :
  length (hashlib.be_bytes width x) = width /\
  Forall (fun o => o < 256) (hashlib.be_bytes width x).
Proof.
  unfold hashlib.be_bytes. split; [by rewrite length_map, length_rev, length_seq|].
  apply Forall_forall. intros o [i [-> _]]%list_elem_of_fmap.
  change 255 with (N.ones 8). rewrite N.land_ones. by apply N.mod_lt.
Qed.

Lemma flat_map_be_bytes (ws : list N) :
  length (flat_map (hashlib.be_bytes 4) ws) = (4 * length ws)%nat /\
  Forall (fun o => o < 256) (flat_map (hashlib.be_bytes 4) ws).
Proof.
  induction ws as [|w ws [IH1 IH2]]; [by split|].
  cbn [flat_map]. destruct (be_bytes_octets 4 w) as [H1 H2].
  split.
  - rewrite length_app, H1, IH1. cbn [length]. lia.
  - by apply Forall_app.
Qed.

Lemma digest_octets (msg : pybytes) :
  length (hashlib.digest msg) = 32%nat /\
  Forall (fun o => o < 256) (hashlib.digest msg).
Proof.
  unfold hashlib.digest. cbv zeta.
  destruct (flat_map_be_bytes
              (fold_left hashlib.compress
                 (hashlib.chunks (length (hashlib.pad msg)) 64 (hashlib.pad msg))
                 hashlib.H0)) as [H1 H2].
  split; [|done]. rewrite H1, compress_all_length. reflexivity.
Qed.

Lemma hex_of_bytes_hex (bs : pybytes) :
  Forall (fun o => o < 256) bs ->
  length (hashlib.hex_of_bytes bs) = (2 * length bs)%nat /\
  Forall (fun c => uuidlib.is_hex c = true) (hashlib.hex_of_bytes bs).
Proof.
  unfold hashlib.hex_of_bytes.
  induction 1 as [|b bs Hb _ [IH1 IH2]]; [by split|].
  cbn [flat_map app]. split; [cbn [length]; rewrite IH1; lia|].
  constructor; [|constructor; [|done]]; apply hex_char_is_hex.
  - rewrite N.shiftr_div_pow2. apply N.Div0.div_lt_upper_bound.
    change (2 ^ 4 * 16) with 256. done.
  - change 15 with (N.ones 4). rewrite N.land_ones. by apply N.mod_lt.
Qed.

Lemma sha256_hexdigest_hex (data : pybytes) :
  length (hashlib.sha256_hexdigest data) = 64%nat /\
  Forall (fun c => uuidlib.is_hex c = true) (hashlib.sha256_hexdigest data).
Proof.
  unfold hashlib.sha256_hexdigest.
  destruct (digest_octets data) as [H32 Hoct].
  destruct (hex_of_bytes_hex _ Hoct) as [Hlen Hhex].
  split; [by rewrite Hlen, H32 | done].
Qed.

Section Digests.
Variable repr : value -> pystr.

(** X9. Whenever [hash] returns, every cell of the hash column is a
    string of exactly 64 lower-case hexadecimal digits, whatever the
    source values are; rows with equal source values get equal digests. *)
Theorem hash_cells_are_64_hex_digits (ds ds' : Dataset) (C H : string)
    (e : os.entropy) :
  fst (hash repr C H (wrapping ds e)) = Ok ds' ->
  forall i x, rows ds !! i = Some x ->
    exists x' d,
      rows ds' !! i = Some x' /\
      x' !! H = Some (VStr d) /\
      length d = 64%nat /\
      Forall (fun c => uuidlib.is_hex c = true) d /\
      forall j y y', rows ds !! j = Some y -> rows ds' !! j = Some y' ->
                     y !! C = x !! C -> y' !! H = x' !! H.
Proof.
  rewrite hash_run. cbn [fst wrapping self dataset].
  unfold hash_outcome, guarded. case_decide; [done|].
  intros Hset i x Hx.
  destruct (set_column_rows _ _ _ _ Hset) as [_ Hrows].
  destruct (Hrows i x Hx) as (v & Hv & Hx').
  unfold cell, generate_hash in Hv.
  destruct (x !! C) as [u|] eqn:Hu; [|done].
  destruct (codec.encode (str repr u)) as [data|] eqn:Hdata; [|done].
  simpl in Hv. injection Hv as <-.
  destruct (sha256_hexdigest_hex data) as [H64 Hhex].
  eexists _, _. split; [exact Hx'|]. split; [apply lookup_insert_eq|].
  split; [done|]. split; [done|].
  intros j y y' Hy Hy' Heq.
  destruct (Hrows j y Hy) as (v' & Hv' & Hy'').
  rewrite Hy' in Hy''. injection Hy'' as ->.
  rewrite !lookup_insert_eq. f_equal.
  unfold cell in Hv'. rewrite Heq in Hv'.
  unfold generate_hash in Hv'. rewrite Hdata in Hv'. simpl in Hv'. congruence.
Qed.
End Digests.

Lemma hash_cells_are_64_hex_digits_witness :
  exists ds' x' d,
    fst (hash repr_plain "some_column" "hash" (wrapping some_dataset example_source))
    = Ok ds' /\
    rows ds' !! 1%nat = Some x' /\
    x' !! "hash" = Some (VStr d) /\
    length d = 64%nat.
Proof.
  destruct (fst (hash repr_plain "some_column" "hash"
                   (wrapping some_dataset example_source))) as [ds'|err] eqn:E;
    [|by vm_compute in E].
  destruct (hash_cells_are_64_hex_digits repr_plain some_dataset ds' "some_column"
              "hash" example_source E 1%nat {[ "some_column" := VNone ]} eq_refl)
    as (x' & d & H1 & H2 & H3 & _).
  by exists ds', x', d.
Defined.

(** ** Version-4 identifiers *)

Lemma nibble_cases (z : N) :
  z < 16 ->
  z = 0 \/ z = 1 \/ z = 2 \/ z = 3 \/ z = 4 \/ z = 5 \/ z = 6 \/ z = 7 \/
  z = 8 \/ z = 9 \/ z = 10 \/ z = 11 \/ z = 12 \/ z = 13 \/ z = 14 \/ z = 15.
Proof. lia. Qed.

Lemma nibble_of_bits (z : N) :
  z < 16 ->
  z = N.b2n (N.testbit z 0) + 2 * N.b2n (N.testbit z 1)
      + 4 * N.b2n (N.testbit z 2) + 8 * N.b2n (N.testbit z 3).
Proof.
  intros Hz. destruct (nibble_cases z Hz) as
    [->|[->|[->|[->|[->|[->|[->|[->|[->|[->|[->|[->|[->|[->|[->| ->]]]]]]]]]]]]]]];
    reflexivity.
Qed.

Lemma nibble_bit (n : N) (shift k : N) :
  k < 4 ->
  N.testbit (N.land (N.shiftr n shift) 15) k = N.testbit n (k + shift).
Proof.
  intros Hk. rewrite N.land_spec, N.shiftr_spec'.
  change 15 with (N.ones 4). rewrite N.ones_spec_low by done. apply andb_true_r.
Qed.

Lemma nibble_bound (x : N) : N.land x 15 < 16.
Proof. change 15 with (N.ones 4). rewrite N.land_ones. by apply N.mod_lt. Qed.

Ltac uuid_bit :=
  unfold uuidlib.UUID; cbv zeta;
  repeat (rewrite N.lor_spec || rewrite N.ldiff_spec);
  repeat match goal with
         | |- context [N.testbit (N.shiftl ?c ?s) ?p] =>
             let v := eval vm_compute in (N.testbit (N.shiftl c s) p) in
             change (N.testbit (N.shiftl c s) p) with v
         end;
  repeat (cbn [negb andb orb];
          rewrite ?andb_false_r, ?orb_false_r, ?orb_true_r, ?andb_true_r);
  try reflexivity.

Lemma UUID_version (b : pybytes) :
  N.land (N.shiftr (uuidlib.UUID b) 76) 15 = 4.
Proof.
  rewrite (nibble_of_bits _ (nibble_bound _)).
  rewrite !nibble_bit by done.
  assert (N.testbit (uuidlib.UUID b) (0 + 76) = false) as -> by uuid_bit.
  assert (N.testbit (uuidlib.UUID b) (1 + 76) = false) as -> by uuid_bit.
  assert (N.testbit (uuidlib.UUID b) (2 + 76) = true) as -> by uuid_bit.
  assert (N.testbit (uuidlib.UUID b) (3 + 76) = false) as -> by uuid_bit.
  reflexivity.
Qed.

Lemma UUID_variant (b : pybytes) :
  8 <= N.land (N.shiftr (uuidlib.UUID b) 60) 15 <= 11.
Proof.
  rewrite (nibble_of_bits _ (nibble_bound _)).
  rewrite !nibble_bit by done.
  assert (N.testbit (uuidlib.UUID b) (2 + 60) = false) as -> by uuid_bit.
  assert (N.testbit (uuidlib.UUID b) (3 + 60) = true) as -> by uuid_bit.
  destruct (N.testbit _ (0 + 60)), (N.testbit _ (1 + 60)); cbn; lia.
Qed.

Lemma layout_positions (hex : pystr) :
  length hex = 32%nat ->
  let s := uuidlib.slice 0 8 hex ++ [45] ++ uuidlib.slice 8 12 hex ++ [45]
           ++ uuidlib.slice 12 16 hex ++ [45] ++ uuidlib.slice 16 20 hex ++ [45]
           ++ drop 20 hex in
  s !! 14%nat = hex !! 12%nat /\ s !! 19%nat = hex !! 16%nat.
Proof.
  intros Hlen.
  do 32 (destruct hex as [|? hex]; [done|]).
  destruct hex; [|done]. by split.
Qed.

Lemma format_032x_digit (n : N) (i : nat) :
  n < 2 ^ 128 -> (i < 32)%nat ->
  uuidlib.format_032x n !! i =
  Some (hashlib.hex_char (N.land (N.shiftr n (4 * N.of_nat (31 - i))) 15)).
Proof.
  intros Hn Hi. unfold uuidlib.format_032x. rewrite (hex_width_bound n Hn).
  rewrite list_lookup_fmap.
  assert (rev (seq 0 32) !! i = Some (31 - i)%nat) as ->; [|done].
  do 32 (destruct i as [|i]; [reflexivity|]). lia.
Qed.

(** The thirteenth digit of a version-4 identifier is [4] and the
    seventeenth is one of [8], [9], [a], [b]. *)
Lemma uuid_str_version4 (b : pybytes) :
  length b = 16%nat -> Forall (fun o => o < 256) b ->
  uuidlib.str (uuidlib.UUID b) !! 14%nat = Some 52 /\
  exists c, uuidlib.str (uuidlib.UUID b) !! 19%nat = Some c /\ c ∈ [56; 57; 97; 98].
Proof.
  intros Hlen Hb. pose proof (UUID_bound b Hlen Hb) as Hn.
  destruct (format_032x_hex _ Hn) as [H32 _].
  destruct (layout_positions _ H32) as [H14 H19].
  unfold uuidlib.str. cbv zeta. rewrite H14, H19.
  rewrite !format_032x_digit by (done || lia).
  change (4 * N.of_nat (31 - 12)) with 76. change (4 * N.of_nat (31 - 16)) with 60.
  rewrite UUID_version. split; [done|].
  eexists. split; [reflexivity|].
  pose proof (UUID_variant b) as Hv.
  pose proof (nibble_cases _ (nibble_bound (N.shiftr (uuidlib.UUID b) 60))) as Hc.
  set (z := N.land (N.shiftr (uuidlib.UUID b) 60) 15) in *.
  assert (z = 8 \/ z = 9 \/ z = 10 \/ z = 11) as Hz by lia.
  clearbody z. clear Hv Hc.
  destruct Hz as [->|[->|[->| ->]]]; compute_done.
Qed.

Lemma uuids_spec (n : nat) (e : os.entropy) :
  snd (uuids n e) =
    {| os.octet := os.octet e; os.consumed := (os.consumed e + 16 * n)%nat |} /\
  forall i, (i < n)%nat ->
    fst (uuids n e) !! i = Some (uuidlib.UUID (octets_for e i)).
Proof.
  revert e. induction n as [|n IH]; intros e.
  - cbn [uuids snd]. split; [|lia].
    destruct e. cbn. f_equal. lia.
  - cbn [uuids]. destruct (os.urandom 16 e) as [b e1] eqn:Hb.
    destruct (uuids n e1) as [us e2] eqn:Hus.
    specialize (IH e1). rewrite Hus in IH. cbn [fst snd] in IH.
    destruct IH as [IH1 IH2].
    assert (e1 = {| os.octet := os.octet e; os.consumed := (os.consumed e + 16)%nat |})
      as He1 by (by injection Hb as _ <-).
    cbn [fst snd]. split.
    + rewrite IH1, He1. cbn. f_equal. lia.
    + intros [|i] Hi.
      * change ((uuidlib.UUID b :: us) !! 0%nat) with (Some (uuidlib.UUID b)).
        do 2 f_equal. unfold octets_for.
        replace {| os.octet := os.octet e;
                   os.consumed := (os.consumed e + 16 * 0)%nat |} with e.
        -- by rewrite Hb.
        -- destruct e. cbn. f_equal. lia.
      * change ((uuidlib.UUID b :: us) !! S i) with (us !! i).
        rewrite IH2 by lia. do 2 f_equal.
        unfold octets_for. rewrite He1. cbn [os.octet os.consumed].
        by replace (os.consumed e + 16 * S i)%nat
          with (os.consumed e + 16 + 16 * i)%nat by lia.
Qed.

Lemma octets_for_octets (e : os.entropy) (i : nat) :
  length (octets_for e i) = 16%nat /\ Forall (fun o => o < 256) (octets_for e i).
Proof. apply urandom_octets. Qed.

(** X10. [uuid] needs no column and never raises.  It takes sixteen
    octets from the random source for every row, in row order, and leaves
    the formatter's reference alone.  The cell it writes in row [i] is
    the text of the version-4 identifier made from the [i]-th group of
    sixteen octets: 36 characters in the 8-4-4-4-12 layout, the version
    digit [4] and a variant digit among [8], [9], [a], [b]; the other
    cells of the row are unchanged. *)
Theorem uuid_writes_version4_identifiers (ds : Dataset) (U : string)
    (e : os.entropy) :
  exists ds' w',
    uuid U (wrapping ds e) = (Ok ds', w') /\
    self w' = {| dataset := ds |} /\
    os.octet (random w') = os.octet e /\
    os.consumed (random w') = (os.consumed e + 16 * length (rows ds))%nat /\
    length (rows ds') = length (rows ds) /\
    (rows ds <> [] -> U ∈ column_names ds') /\
    forall i x, rows ds !! i = Some x ->
      exists x' s,
        rows ds' !! i = Some x' /\
        x' !! U = Some (VStr s) /\
        s = uuidlib.str (uuidlib.UUID (octets_for e i)) /\
        length s = 36%nat /\
        uuidlib.canonical s = true /\
        s !! 14%nat = Some 52 /\
        (exists c, s !! 19%nat = Some c /\ c ∈ [56; 57; 97; 98]) /\
        forall k, k <> U -> x' !! k = x !! k.
Proof.
  rewrite uuid_run. cbn [wrapping self dataset random].
  eexists _, _. split; [reflexivity|]. cbn [self random].
  destruct (uuids_spec (length (rows ds)) e) as [Hsnd Hfst].
  split; [done|]. split; [by destruct (rows ds); [|rewrite Hsnd]|].
  split. { destruct (rows ds) eqn:E; [cbn; lia | by rewrite Hsnd]. }
  destruct (uuid_outcome_rows U ds e) as [Hlen _].
  split; [done|]. split.
  { intros Hrows. rewrite uuid_outcome_names. destruct (rows ds); [done|].
    apply elem_of_app. case_decide; [by left | right; by left]. }
  intros i x Hx. unfold uuid_outcome.
  destruct (rows ds) as [|x0 l] eqn:E; [by rewrite lookup_nil in Hx|].
  cbn [rows].
  assert (i < length (x0 :: l))%nat as Hi by (by eapply lookup_lt_Some).
  specialize (Hfst i Hi).
  destruct (octets_for_octets e i) as [H16 H256].
  destruct (uuid_str_version4 _ H16 H256) as [H14 H19].
  eexists _, _. split.
  { rewrite lookup_zip_with, Hfst. cbn [mbind option_bind]. rewrite Hx. reflexivity. }
  split; [apply lookup_insert_eq|]. split; [reflexivity|].
  pose proof (uuid_str_canonical _ H16 H256) as Hcan.
  split; [by apply canonical_length|]. split; [done|]. split; [done|].
  split; [done|]. intros k Hk. by apply lookup_insert_ne.
Qed.

(** ** The results are datasets *)

Lemma forallb_Forall {A} (f : A -> bool) (l : list A) :
  forallb f l = true <-> Forall (fun a => f a = true) l.
Proof.
  induction l as [|a l IH]; simpl; [by split|].
  rewrite andb_true_iff, IH. split.
  - intros [? ?]. by constructor.
  - by inversion 1.
Qed.

Lemma hex_is_scalar (c : N) : uuidlib.is_hex c = true -> codec.is_scalar c = true.
Proof.
  unfold uuidlib.is_hex, codec.is_scalar.
  intros [[_ H]%andb_true_iff|[_ H]%andb_true_iff]%orb_true_iff;
    apply N.leb_le in H; apply orb_true_iff; left; apply N.ltb_lt; lia.
Qed.

Lemma hyphen_or_hex_scalar (hyphen_at : nat -> bool) (s : pystr) (a : nat) :
  forallb (fun ic : nat * N =>
             if hyphen_at (fst ic) then snd ic =? 45 else uuidlib.is_hex (snd ic))
          (combine (seq a (length s)) s) = true ->
  forallb codec.is_scalar s = true.
Proof.
  revert a. induction s as [|c s IH]; intros a; [done|].
  cbn [length seq combine forallb fst snd].
  intros [Hc Hs]%andb_true_iff. apply andb_true_iff. split; [|exact (IH (S a) Hs)].
  destruct (hyphen_at a).
  - apply N.eqb_eq in Hc as ->. done.
  - by apply hex_is_scalar.
Qed.

Lemma canonical_text_ok (s : pystr) :
  uuidlib.canonical s = true -> text_ok (VStr s).
Proof.
  unfold uuidlib.canonical, text_ok. intros [_ H]%andb_true_iff.
  by apply (hyphen_or_hex_scalar
              (fun i => (i =? 8)%nat || (i =? 13)%nat || (i =? 18)%nat || (i =? 23)%nat)
              s 0).
Qed.

Lemma digest_text_ok (data : pybytes) :
  text_ok (VStr (hashlib.sha256_hexdigest data)).
Proof.
  destruct (sha256_hexdigest_hex data) as [_ Hhex].
  apply forallb_Forall. eapply Forall_impl; [exact Hhex|].
  intros c. apply hex_is_scalar.
Qed.

Lemma inserted_dom (target : string) (names : list string) :
  ({[ target ]} ∪ list_to_set names : gset string)
  = list_to_set (names ++ (if decide (target ∈ names) then [] else [target])).
Proof.
  rewrite list_to_set_app_L. apply set_eq. intros k.
  rewrite !elem_of_union, elem_of_singleton, !elem_of_list_to_set.
  case_decide as Ht.
  - rewrite elem_of_nil. split; [intros [->|?]; by left | intros [?|[]]; by right].
  - rewrite list_elem_of_singleton. tauto.
Qed.

Lemma set_column_is_dataset (target : string) (g : row -> result value)
    (ds ds' : Dataset) :
  is_dataset ds ->
  set_column target g ds = Ok ds' ->
  (forall x v, x ∈ rows ds -> g x = Ok v -> text_ok v) ->
  is_dataset ds'.
Proof.
  intros Hds Hset Hg.
  destruct (rows ds) as [|x0 l] eqn:E.
  { unfold set_column in Hset. rewrite E in Hset. by injection Hset as <-. }
  assert (rows ds <> []) as Hne by (by rewrite E).
  rewrite <- E in *. clear E x0 l.
  destruct (set_column_rows _ _ _ _ Hset) as [Hlen Hrows].
  pose proof (set_column_names _ _ _ _ Hset Hne) as Hnames.
  apply Forall_lookup. intros i x' Hx'.
  destruct (lookup_lt_is_Some_2 (rows ds) i) as [x Hx].
  { rewrite <- Hlen. by eapply lookup_lt_Some. }
  destruct (Hrows i x Hx) as (v & Hv & Hx'').
  rewrite Hx' in Hx''. injection Hx'' as ->.
  pose proof (list_elem_of_lookup_2 _ _ _ Hx) as Hin.
  destruct (proj1 (Forall_forall _ _) Hds x Hin) as [Hdom Htext].
  split.
  - rewrite dom_insert_L, Hdom, Hnames. apply inserted_dom.
  - apply map_Forall_insert_2; [|done]. by apply (Hg x).
Qed.

Lemma uuid_outcome_is_dataset (target : string) (ds : Dataset) (e : os.entropy) :
  is_dataset ds -> is_dataset (uuid_outcome target ds e).
Proof.
  intros Hds.
  destruct (uuid_outcome_rows target ds e) as [Hlen Hrows].
  pose proof (uuid_outcome_names target ds e) as Hnames.
  apply Forall_lookup. intros i x' Hx'.
  destruct (lookup_lt_is_Some_2 (rows ds) i) as [x Hx].
  { rewrite <- Hlen. by eapply lookup_lt_Some. }
  destruct (Hrows i x Hx) as (u & Hx'' & Hcan).
  rewrite Hx' in Hx''. injection Hx'' as ->.
  pose proof (list_elem_of_lookup_2 _ _ _ Hx) as Hin.
  destruct (proj1 (Forall_forall _ _) Hds x Hin) as [Hdom Htext].
  destruct (rows ds) as [|x0 l]; [by rewrite lookup_nil in Hx|].
  split.
  - rewrite dom_insert_L, Hdom, Hnames. apply inserted_dom.
  - apply map_Forall_insert_2; [|done]. by apply canonical_text_ok.
Qed.

Lemma renamed_dom (old new : string) (names : list string) :
  old ∈ names ->
  (list_to_set ((fun c => if decide (c = old) then new else c) <$> names)
     : gset string)
  = {[ new ]} ∪ (list_to_set names ∖ {[ old ]}).
Proof.
  intros Hold. apply set_eq. intros k.
  rewrite elem_of_list_to_set, list_elem_of_fmap, elem_of_union,
    elem_of_singleton, elem_of_difference, elem_of_list_to_set, elem_of_singleton.
  split.
  - intros (c & -> & Hc). case_decide; [by left | by right].
  - intros [->|[Hk Hne]].
    + exists old. by rewrite decide_True.
    + exists k. by rewrite decide_False.
Qed.

Lemma dropped_dom (c : string) (names : list string) :
  (list_to_set (List.filter (fun k => bool_decide (k ∉ [c])) names) : gset string)
  = list_to_set names ∖ {[ c ]}.
Proof.
  apply set_eq. intros k.
  rewrite elem_of_list_to_set, list_elem_of_In, filter_In, <- list_elem_of_In,
    bool_decide_eq_true, list_elem_of_singleton, elem_of_difference,
    elem_of_list_to_set, elem_of_singleton. done.
Qed.

Lemma rename_column_Ok_inv (old new : string) (w : world) (ds' : Dataset) :
  fst (rename_column old new w) = Ok ds' ->
  old ∈ column_names (dataset (self w)) /\
  (new ∉ column_names (dataset (self w))) /\
  new <> EmptyString.
Proof.
  unfold rename_column, datasets.rename_column, bind, get_dataset, raise, ret.
  cbn [fst]. repeat case_decide; cbn [fst]; try discriminate.
  intros _. split; [|done].
  by destruct (decide (old ∈ column_names (dataset (self w)))).
Qed.

Lemma drop_column_Ok_inv (c : string) (w : world) (ds' : Dataset) :
  fst (drop_column c w) = Ok ds' -> c ∈ column_names (dataset (self w)).
Proof.
  unfold drop_column, bind, get_dataset, raise. cbn [fst].
  case_decide; cbn [fst]; [discriminate|]. intros _.
  by destruct (decide (c ∈ column_names (dataset (self w)))).
Qed.

Lemma selected_Forall {A} (P : A -> Prop) (l : list A) (indices : list nat) :
  Forall P l -> Forall P (omap (fun i => l !! i) indices).
Proof.
  intros Hl. induction indices as [|i indices IH]; [constructor|].
  change (omap (fun i => l !! i) (i :: indices)) with
    (match l !! i with
     | Some y => y :: omap (fun i => l !! i) indices
     | None => omap (fun i => l !! i) indices
     end).
  destruct (l !! i) as [y|] eqn:E; [|done].
  constructor; [|done]. by apply (proj1 (Forall_lookup _ _) Hl i).
Qed.

Lemma do_lower_scalar (db : unicode.database) (s before : pystr) :
  (forall c, codec.is_scalar c = true ->
             forallb codec.is_scalar (unicode.tolower_full db c) = true) ->
  Forall (fun c => codec.is_scalar c = true) s ->
  Forall (fun c => codec.is_scalar c = true) (unicode.do_lower db before s).
Proof.
  intros Hdb Hs. revert before.
  induction Hs as [|c s Hc _ IH]; intros before; cbn [unicode.do_lower];
    [constructor|].
  apply Forall_app. split; [|apply IH].
  destruct (c =? unicode.capital_sigma).
  - constructor; [|constructor]. unfold unicode.handle_capital_sigma.
    by destruct (_ && _).
  - by apply forallb_Forall, Hdb.
Qed.

Section Results.
Variable repr : value -> pystr.
Variable ucd : unicode.database.

(** X11. The transformations return datasets: when the wrapped dataset
    has, in every row, exactly the columns of its schema (and well-formed
    text), so has whatever dataset any of the nine transformations
    returns, provided the values handed in (the constant, the fill value,
    the converted values, the lower-case mappings) are well-formed too. *)
Theorem transformations_return_datasets (ds ds' : Dataset)
    (c T old new : string) (normalized : option string)
    (condition : row -> result bool) (new_type : value -> result value)
    (constant fill_value : value) (e : os.entropy) :
  is_dataset ds ->
  (forall d, codec.is_scalar d = true ->
             forallb codec.is_scalar (unicode.tolower_full ucd d) = true) ->
  (forall v v', new_type v = Ok v' -> text_ok v') ->
  text_ok constant ->
  text_ok fill_value ->
  fst (hash repr c T (wrapping ds e)) = Ok ds' \/
  fst (uuid T (wrapping ds e)) = Ok ds' \/
  fst (normalize_text ucd c normalized (wrapping ds e)) = Ok ds' \/
  fst (filter_rows condition (wrapping ds e)) = Ok ds' \/
  fst (rename_column old new (wrapping ds e)) = Ok ds' \/
  fst (drop_column c (wrapping ds e)) = Ok ds' \/
  fst (add_constant_column T constant (wrapping ds e)) = Ok ds' \/
  fst (convert_column_type c new_type (wrapping ds e)) = Ok ds' \/
  fst (fill_missing c fill_value (wrapping ds e)) = Ok ds' ->
  is_dataset ds'.
Proof.
  intros Hds Hucd Htype Hconst Hfill H.
  destruct H as [H|[H|[H|[H|[H|[H|[H|[H|H]]]]]]]].
  - rewrite hash_run in H. cbn [fst wrapping self dataset] in H.
    unfold hash_outcome, guarded in H. case_decide; [done|].
    apply (set_column_is_dataset _ _ _ _ Hds H).
    intros x v _. unfold cell, generate_hash.
    destruct (x !! c); [|done]. destruct (codec.encode _); [|done].
    intros [= <-]. apply digest_text_ok.
  - rewrite uuid_run in H. cbn [fst wrapping self dataset random] in H.
    injection H as <-. by apply uuid_outcome_is_dataset.
  - rewrite normalize_text_run in H. cbn [fst wrapping self dataset] in H.
    unfold normalize_text_outcome, guarded in H. case_decide; [done|].
    apply (set_column_is_dataset _ _ _ _ Hds H).
    intros x v Hx. unfold cell. destruct (x !! c) as [u|] eqn:Hu; [|done].
    destruct u; try done. intros [= <-].
    destruct (proj1 (Forall_forall _ _) Hds x Hx) as [_ Htext].
    specialize (Htext c _ Hu).
    apply forallb_Forall, strip_Forall, do_lower_scalar; [done|].
    by apply forallb_Forall.
  - rewrite filter_rows_run in H. cbn [fst wrapping self dataset] in H.
    unfold filter_rows_outcome in H.
    destruct (collect condition (rows ds)) as [mask|]; [|done].
    injection H as <-. unfold is_dataset, datasets.select. cbn [rows column_names].
    by apply selected_Forall.
  - destruct (rename_column_Ok_inv _ _ _ _ H) as (Hold & Hnew & Hne).
    cbn [wrapping self dataset] in Hold, Hnew.
    rewrite rename_column_ok in H by done. cbn [fst wrapping self dataset] in H.
    injection H as <-. unfold is_dataset. cbn [rows column_names].
    apply Forall_fmap, Forall_forall. intros x Hx.
    destruct (proj1 (Forall_forall _ _) Hds x Hx) as [Hdom Htext].
    destruct (dataset_row ds x old Hds Hx Hold) as (v & Hv & Hvok).
    unfold compose, datasets.rename_key. rewrite Hv. split.
    + by rewrite dom_insert_L, dom_delete_L, Hdom, renamed_dom.
    + apply map_Forall_insert_2; [done|]. by apply map_Forall_delete.
  - pose proof (drop_column_Ok_inv _ _ _ H) as Hc.
    cbn [wrapping self dataset] in Hc.
    rewrite drop_column_ok in H by done. cbn [fst wrapping self dataset] in H.
    injection H as <-. unfold is_dataset. cbn [rows column_names].
    apply Forall_fmap, Forall_forall. intros x Hx.
    destruct (proj1 (Forall_forall _ _) Hds x Hx) as [Hdom Htext].
    unfold compose. split.
    + by rewrite dom_delete_L, Hdom, dropped_dom.
    + by apply map_Forall_delete.
  - rewrite add_constant_column_run in H. cbn [fst wrapping self dataset] in H.
    apply (set_column_is_dataset _ _ _ _ Hds H). by intros x v _ [= <-].
  - rewrite convert_column_type_run in H. cbn [fst wrapping self dataset] in H.
    unfold convert_column_type_outcome, guarded in H. case_decide; [done|].
    apply (set_column_is_dataset _ _ _ _ Hds H).
    intros x v _. unfold cell. destruct (x !! c) as [u|]; [|done]. apply Htype.
  - rewrite fill_missing_run in H. cbn [fst wrapping self dataset] in H.
    unfold fill_missing_outcome, guarded in H. case_decide; [done|].
    apply (set_column_is_dataset _ _ _ _ Hds H).
    intros x v Hx. unfold cell. destruct (x !! c) as [u|] eqn:Hu; [|done].
    intros [= <-].
    destruct (proj1 (Forall_forall _ _) Hds x Hx) as [_ Htext].
    specialize (Htext c u Hu). by destruct u.
Qed.
End Results.

Lemma builtin_int_text_ok (v v' : value) : builtin_int v = Ok v' -> text_ok v'.
Proof.
  destruct v; simpl; try done; try (by intros [= <-]).
  destruct (int_of_digits s); [by intros [= <-] | done].
Qed.

Lemma ascii_letters_scalar (d : N) :
  codec.is_scalar d = true ->
  forallb codec.is_scalar (unicode.tolower_full unicode.ascii_letters d) = true.
Proof.
  intros Hd. cbn. destruct (_ && _) eqn:E; cbn; rewrite andb_true_r; [|done].
  apply andb_true_iff in E as [_ E]. apply N.leb_le in E.
  apply orb_true_iff. left. apply N.ltb_lt. lia.
Qed.

Lemma transformations_return_datasets_witness :
  exists ds',
    fst (normalize_text unicode.ascii_letters "document" (Some "normalized_text")
           (wrapping sample_dataset example_source)) = Ok ds' /\
    is_dataset ds'.
Proof.
  destruct (fst (normalize_text unicode.ascii_letters "document"
                   (Some "normalized_text")
                   (wrapping sample_dataset example_source))) as [ds'|err] eqn:E;
    [|by vm_compute in E].
  exists ds'. split; [reflexivity|].
  assert (is_dataset sample_dataset) as Hds by compute_done.
  apply (transformations_return_datasets repr_plain unicode.ascii_letters
           sample_dataset ds' "document" "hash" "document" "doc"
           (Some "normalized_text") mentions_another builtin_int VNone VNone
           example_source Hds ascii_letters_scalar builtin_int_text_ok I I).
  right. right. left. exact E.
Defined.

(** ** The combined call on other datasets *)

Section CallErrors.
Variable repr : value -> pystr.

(** X12. The combined call always hashes the column named ["document"]:
    on a dataset without such a column, whatever other columns it has and
    whatever names are passed, it raises the missing-column error for
    ["document"]; nothing is assigned to the formatter's reference and no
    random octet is taken. *)
Theorem call_requires_document_column (ds : Dataset)
    (hash_column_name uuid_column_name : string) (e : os.entropy) :
  "document" ∉ column_names ds ->
  __call__ repr hash_column_name uuid_column_name (wrapping ds e) =
  (Raise (ValueError "Column 'document' does not exist in the dataset."),
   wrapping ds e).
Proof.
  intros Hdoc. rewrite call_run. cbn [wrapping self dataset].
  unfold hash_outcome, guarded. by rewrite decide_True by done.
Qed.
End CallErrors.

Lemma call_requires_document_column_witness :
  __call__ repr_plain "hash" "uuid" (wrapping some_dataset example_source) =
  (Raise (ValueError "Column 'document' does not exist in the dataset."),
   wrapping some_dataset example_source).
Proof.
  assert ("document" ∉ column_names some_dataset) as Hdoc by compute_done.
  exact (call_requires_document_column repr_plain some_dataset "hash" "uuid"
           example_source Hdoc).
Defined.

(** ** Summaries of columns with missing values *)












(** ** What normalisation removes *)





Section Stripping.
Variable ucd : unicode.database.

End Stripping.


(** ** Calling the formatter twice *)

Lemma set_column_fixed (target : string) (g : row -> result value) (d : Dataset) :
  (rows d <> [] -> target ∈ column_names d) ->
  (forall x, x ∈ rows d -> exists v, g x = Ok v /\ x !! target = Some v) ->
  set_column target g d = Ok d.
Proof.
  intros Hnames Hrows. unfold set_column.
  destruct (rows d) as [|x0 l] eqn:E; [done|].
  rewrite <- E in *.
  assert (rows d <> []) as Hne by (by rewrite E).
  destruct (collect_total g (rows d)) as [vs Hvs].
  { apply Forall_forall. intros x Hx. destruct (Hrows x Hx) as (v & Hv & _).
    by exists v. }
  rewrite Hvs. cbn [rbind]. rewrite decide_True by auto. rewrite app_nil_r.
  assert (zip_with (fun v (x : row) => <[target := v]> x) vs (rows d) = rows d) as ->.
  { apply collect_Ok in Hvs. clear E Hne Hnames.
    induction Hvs as [|x v xs vs' Hxv _ IH]; [done|].
    cbn [zip_with]. rewrite IH by (intros; apply Hrows; by right). f_equal.
    destruct (Hrows x) as (v' & Hv' & Hlook); [by left|].
    apply insert_id. congruence. }
  by destruct d.
Qed.

Lemma entropy_after {A} (l : list A) (e : os.entropy) :
  match l with
  | [] => e
  | x :: l' => snd (uuids (length (x :: l')) e)
  end = snd (uuids (length l) e).
Proof. by destruct l. Qed.

Section CallTwice.
Variable repr : value -> pystr.
Hypothesis repr_encodable : forall v, forallb codec.is_scalar (repr v) = true.

(** X15. The formatter keeps what the combined call returned: a second
    call works on the result of the first.  With column names that
    differ from each other and from ["document"], the second call returns
    a dataset with the same schema in which every cell but the
    identifiers is as the first call left it (the digests are computed
    again from the same documents), and the random source has delivered
    sixteen octets per row and per call. *)
Theorem call_twice_keeps_digests (ds : Dataset) (h u : string) (e : os.entropy) :
  is_dataset ds ->
  "document" ∈ column_names ds ->
  h <> u -> h <> "document" -> u <> "document" ->
  exists d1 w1 d2 w2,
    __call__ repr h u (wrapping ds e) = (Ok d1, w1) /\
    dataset (self w1) = d1 /\
    __call__ repr h u w1 = (Ok d2, w2) /\
    dataset (self w2) = d2 /\
    column_names d2 = column_names d1 /\
    length (rows d2) = length (rows d1) /\
    os.consumed (random w2) = (os.consumed e + 32 * length (rows ds))%nat /\
    forall i x1, rows d1 !! i = Some x1 ->
      exists x2,
        rows d2 !! i = Some x2 /\
        forall k, k <> u -> x2 !! k = x1 !! k.
Proof.
  intros Hds Hdoc Hhu Hhd Hud.
  rewrite call_run. cbn [wrapping self dataset random].
  unfold hash_outcome at 1, guarded.
  rewrite decide_False by (intros Hn; by apply Hn).
  set (g := cell "document"
              (fun v => rbind (generate_hash repr v) (fun d => Ok (VStr d)))).
  destruct (set_column_total h g ds
              (hash_cell_total repr repr_encodable ds "document" Hds Hdoc))
    as [hashed Hhashed].
  rewrite Hhashed. cbv zeta.
  set (d1 := uuid_outcome u hashed e).
  exists d1. do 3 eexists. split; [reflexivity|]. cbn [self dataset]. split; [reflexivity|].
  rewrite call_run. cbn [self dataset random]. rewrite !entropy_after.
  set (e1 := snd (uuids (length (rows hashed)) e)).
  destruct (set_column_rows _ _ _ _ Hhashed) as [Hlen Hrows].
  destruct (uuid_outcome_rows u hashed e) as [Hlen1 Hrows1]. fold d1 in Hlen1, Hrows1.
  assert (forall x1, x1 ∈ rows d1 ->
            exists x dg idv, x ∈ rows ds /\ g x = Ok dg /\
                         x1 = <[u := idv]> (<[h := dg]> x)) as Hshape.
  { intros x1 [i Hi]%list_elem_of_lookup_1.
    destruct (lookup_lt_is_Some_2 (rows ds) i) as [x Hx].
    { rewrite <- Hlen, <- Hlen1. by eapply lookup_lt_Some. }
    destruct (Hrows i x Hx) as (dg & Hdg & Hxh).
    destruct (Hrows1 i _ Hxh) as (idv & Hx1 & _).
    rewrite Hi in Hx1. injection Hx1 as ->.
    exists x, dg, (VStr (uuidlib.str idv)).
    split; [by eapply list_elem_of_lookup_2|]. by split. }
  assert (rows d1 <> [] -> h ∈ column_names d1) as Hh1.
  { intros Hne. unfold d1. rewrite uuid_outcome_names.
    assert (rows ds <> []) as Hne'.
    { intros E. apply Hne. apply length_zero_iff_nil.
      rewrite Hlen1, Hlen, E. done. }
    assert (rows hashed <> []) as Hne''.
    { intros E. apply Hne'. apply length_zero_iff_nil. rewrite <- Hlen, E. done. }
    destruct (rows hashed) as [|y ys] eqn:Ey; [done|].
    rewrite (set_column_names _ _ _ _ Hhashed Hne').
    apply elem_of_app. left. apply elem_of_app.
    case_decide; [by left | right; by left]. }
  assert ("document" ∈ column_names d1) as Hdoc1.
  { unfold d1. rewrite uuid_outcome_names.
    pose proof (set_column_names_incl _ _ _ _ "document" Hhashed Hdoc) as Hin.
    destruct (rows hashed); [done|]. apply elem_of_app. by left. }
  assert (hash_outcome repr "document" h d1 = Ok d1) as ->.
  { unfold hash_outcome, guarded.
    rewrite decide_False by (intros Hn; by apply Hn).
    apply set_column_fixed; [done|]. fold g.
    intros x1 Hx1. destruct (Hshape x1 Hx1) as (x & dg & idv & Hx & Hdg & ->).
    exists dg. split.
    - unfold g, cell in *. rewrite !lookup_insert_ne by done. exact Hdg.
    - rewrite lookup_insert_ne by done. apply lookup_insert_eq. }
  cbv zeta. rewrite entropy_after.
  split; [reflexivity|]. cbn [self dataset random].
  split; [reflexivity|].
  destruct (uuid_outcome_rows u d1 e1) as [Hlen2 Hrows2].
  split.
  { rewrite !uuid_outcome_names. destruct (rows d1) eqn:E1; [done|].
    rewrite decide_True; [apply app_nil_r|].
    unfold d1. rewrite uuid_outcome_names.
    destruct (rows hashed) eqn:Eh.
    - exfalso. unfold d1, uuid_outcome in E1. by rewrite Eh, Eh in E1.
    - apply elem_of_app. case_decide; [by left | right; by left]. }
  split; [done|]. split.
  { destruct (uuids_spec (length (rows hashed)) e) as [Hs1 _]. fold e1 in Hs1.
    destruct (uuids_spec (length (rows d1)) e1) as [Hs2 _].
    unfold e1 in *. rewrite Hs2, Hs1. cbn [os.consumed]. rewrite Hlen1, Hlen. lia. }
  intros i x1 Hx1. destruct (Hrows2 i x1 Hx1) as (idv & Hx2 & _).
  eexists. split; [exact Hx2|]. intros k Hk. by apply lookup_insert_ne.
Qed.
End CallTwice.

Lemma call_twice_keeps_digests_witness :
  exists d1 w1 d2 w2,
    __call__ repr_plain "hash" "uuid" (wrapping sample_dataset example_source)
    = (Ok d1, w1) /\
    __call__ repr_plain "hash" "uuid" w1 = (Ok d2, w2) /\
    column_names d2 = column_names d1 /\
    os.consumed (random w2) = 64%nat.
Proof.
  assert (is_dataset sample_dataset) as Hds by compute_done.
  assert ("document" ∈ column_names sample_dataset) as Hdoc by compute_done.
  assert ("hash" <> "uuid") as Hhu by discriminate.
  assert ("hash" <> "document") as Hhd by discriminate.
  assert ("uuid" <> "document") as Hud by discriminate.
  destruct (call_twice_keeps_digests repr_plain repr_plain_encodable sample_dataset
              "hash" "uuid" example_source Hds Hdoc Hhu Hhd Hud)
    as (d1 & w1 & d2 & w2 & H1 & _ & H2 & _ & Hn & _ & Hc & _).
  exists d1, w1, d2, w2. split; [exact H1|]. split; [exact H2|].
  split; [exact Hn|]. exact Hc.
Defined.

(** ** When two identifiers coincide *)

Lemma UUID_as_powers (a : N) :
  N.lor (N.ldiff (N.lor (N.ldiff a (N.lor (2 ^ 62) (2 ^ 63))) (2 ^ 63))
                 (N.lor (N.lor (2 ^ 76) (2 ^ 77)) (N.lor (2 ^ 78) (2 ^ 79))))
        (2 ^ 78)
  = N.lor (N.ldiff (N.lor (N.ldiff a (N.shiftl 0xc000 48)) (N.shiftl 0x8000 48))
                   (N.shiftl 0xf000 64))
          (N.shiftl 4 76).
Proof. reflexivity. Qed.

Lemma UUID_bit (b : pybytes) (k : N) :
  N.testbit (uuidlib.UUID b) k =
  if bool_decide (k ∈ forced_bits)
  then bool_decide (k = 63 \/ k = 78)
  else N.testbit (hashlib.from_be b) k.
Proof.
  unfold uuidlib.UUID. cbv zeta. rewrite <- UUID_as_powers.
  repeat (rewrite N.lor_spec || rewrite N.ldiff_spec). rewrite !N.pow2_bits_eqb.
  case_bool_decide as Hk.
  - unfold forced_bits in Hk.
    repeat (apply elem_of_cons in Hk as [->|Hk]); [..|by apply elem_of_nil in Hk];
      (case_bool_decide as Hr; [|try (exfalso; lia)]);
      repeat (cbn [N.eqb Pos.eqb negb orb andb];
              rewrite ?andb_false_r, ?orb_false_r, ?orb_true_r, ?andb_true_r);
      try reflexivity; exfalso; lia.
  - assert (k <> 62 /\ k <> 63 /\ k <> 76 /\ k <> 77 /\ k <> 78 /\ k <> 79)
      as (H1 & H2 & H3 & H4 & H5 & H6).
    { unfold forced_bits in Hk. rewrite !not_elem_of_cons in Hk. tauto. }
    rewrite !(proj2 (N.eqb_neq _ _)) by (intros E; symmetry in E; tauto).
    cbn [negb orb andb]. by rewrite !andb_true_r, !orb_false_r.
Qed.

Lemma hex_char_inj (d1 d2 : N) :
  d1 < 16 -> d2 < 16 -> hashlib.hex_char d1 = hashlib.hex_char d2 -> d1 = d2.
Proof.
  unfold hashlib.hex_char. intros H1 H2.
  destruct (d1 <? 10) eqn:E1, (d2 <? 10) eqn:E2;
    try apply N.ltb_lt in E1; try apply N.ltb_lt in E2;
    try apply N.ltb_ge in E1; try apply N.ltb_ge in E2; lia.
Qed.

Lemma layout_recover (hex : pystr) :
  length hex = 32%nat ->
  let s := uuidlib.slice 0 8 hex ++ [45] ++ uuidlib.slice 8 12 hex ++ [45]
           ++ uuidlib.slice 12 16 hex ++ [45] ++ uuidlib.slice 16 20 hex ++ [45]
           ++ drop 20 hex in
  take 8 s ++ take 4 (drop 9 s) ++ take 4 (drop 14 s) ++ take 4 (drop 19 s)
    ++ drop 24 s = hex.
Proof.
  intros Hlen.
  do 32 (destruct hex as [|? hex]; [done|]).
  by destruct hex.
Qed.

Lemma high_bits (n k : N) : n < 2 ^ 128 -> 128 <= k -> N.testbit n k = false.
Proof.
  intros Hn Hk. destruct (N.eq_dec n 0) as [->|Hn0]; [apply N.bits_0|].
  apply N.bits_above_log2. apply N.log2_lt_pow2 in Hn; lia.
Qed.

Lemma format_032x_inj (n m : N) :
  n < 2 ^ 128 -> m < 2 ^ 128 ->
  uuidlib.format_032x n = uuidlib.format_032x m -> n = m.
Proof.
  intros Hn Hm Heq. apply N.bits_inj. intros k.
  destruct (N.lt_ge_cases k 128) as [Hk|Hk];
    [|by rewrite !high_bits by done].
  set (j := N.to_nat (k / 4)).
  assert (k / 4 < 32) as Hq by (apply N.Div0.div_lt_upper_bound; lia).
  assert (j < 32)%nat as Hj by (unfold j; lia).
  pose proof (format_032x_digit n (31 - j) Hn ltac:(lia)) as Dn.
  pose proof (format_032x_digit m (31 - j) Hm ltac:(lia)) as Dm.
  rewrite Heq, Dm in Dn. injection Dn as Dn.
  apply hex_char_inj in Dn; [|apply nibble_bound..].
  replace (31 - (31 - j))%nat with j in Dn by lia.
  replace (4 * N.of_nat j) with (4 * (k / 4)) in Dn by (unfold j; lia).
  pose proof (N.div_mod' k 4) as Hdm.
  assert (k mod 4 < 4) as Hr by (by apply N.mod_lt).
  pose proof (nibble_bit n (4 * (k / 4)) (k mod 4) Hr) as Bn.
  pose proof (nibble_bit m (4 * (k / 4)) (k mod 4) Hr) as Bm.
  replace (k mod 4 + 4 * (k / 4)) with k in Bn, Bm by lia.
  by rewrite <- Bn, <- Bm, Dn.
Qed.

Lemma uuid_str_inj (n m : N) :
  n < 2 ^ 128 -> m < 2 ^ 128 -> uuidlib.str n = uuidlib.str m -> n = m.
Proof.
  intros Hn Hm Heq. apply format_032x_inj; try done.
  destruct (format_032x_hex n Hn) as [Ln _].
  destruct (format_032x_hex m Hm) as [Lm _].
  rewrite <- (layout_recover _ Ln), <- (layout_recover _ Lm).
  unfold uuidlib.str in Heq. cbv zeta in *. by rewrite Heq.
Qed.

Lemma UUID_eq_iff (b1 b2 : pybytes) :
  uuidlib.UUID b1 = uuidlib.UUID b2 <->
  forall k, k ∉ forced_bits ->
    N.testbit (hashlib.from_be b1) k = N.testbit (hashlib.from_be b2) k.
Proof.
  split.
  - intros Heq k Hk. pose proof (UUID_bit b1 k) as H1.
    rewrite Heq, UUID_bit in H1. by rewrite !bool_decide_eq_false_2 in H1 by done.
  - intros Hfree. apply N.bits_inj. intros k. rewrite !UUID_bit.
    case_bool_decide; [done|]. by apply Hfree.
Qed.

Lemma uuid_outcome_cell (U : string) (ds : Dataset) (e : os.entropy)
    (i : nat) (x : row) :
  rows ds !! i = Some x ->
  rows (uuid_outcome U ds e) !! i
  = Some (<[U := VStr (uuidlib.str (uuidlib.UUID (octets_for e i)))]> x).
Proof.
  intros Hx. unfold uuid_outcome.
  destruct (rows ds) as [|x0 l] eqn:E; [by rewrite lookup_nil in Hx|].
  cbn [rows].
  assert (i < length (x0 :: l))%nat as Hi by (by eapply lookup_lt_Some).
  destruct (uuids_spec (length (x0 :: l)) e) as [_ Hfst].
  rewrite lookup_zip_with, (Hfst i Hi). cbn [mbind option_bind]. by rewrite Hx.
Qed.

(** X16. Two rows get the same identifier exactly when their two groups
    of sixteen random octets agree on every bit other than the six that
    version 4 forces: [uuid] never repeats an identifier for draws that
    differ in one of the 122 free bits. *)
Theorem uuid_cells_coincide_iff (ds : Dataset) (U : string) (e : os.entropy)
    (i j : nat) (x y : row) :
  rows ds !! i = Some x ->
  rows ds !! j = Some y ->
  exists ds' x' y' s t,
    fst (uuid U (wrapping ds e)) = Ok ds' /\
    rows ds' !! i = Some x' /\
    rows ds' !! j = Some y' /\
    x' !! U = Some (VStr s) /\
    y' !! U = Some (VStr t) /\
    (s = t <->
     forall k, k ∉ forced_bits ->
       N.testbit (hashlib.from_be (octets_for e i)) k
       = N.testbit (hashlib.from_be (octets_for e j)) k).
Proof.
  intros Hx Hy. rewrite uuid_run. cbn [fst wrapping self dataset random].
  eexists _, _, _, _, _. split; [reflexivity|].
  split; [by apply uuid_outcome_cell|]. split; [by apply uuid_outcome_cell|].
  split; [apply lookup_insert_eq|]. split; [apply lookup_insert_eq|].
  rewrite <- UUID_eq_iff.
  destruct (octets_for_octets e i) as [Li Bi].
  destruct (octets_for_octets e j) as [Lj Bj].
  split; [|by intros ->].
  apply uuid_str_inj; by apply UUID_bound.
Qed.

Lemma uuid_cells_coincide_iff_witness :
  exists ds' x' y' s t,
    fst (uuid "uuid" (wrapping sample_dataset example_source)) = Ok ds' /\
    rows ds' !! 0%nat = Some x' /\
    rows ds' !! 1%nat = Some y' /\
    x' !! "uuid" = Some (VStr s) /\
    y' !! "uuid" = Some (VStr t) /\
    s <> t.
Proof.
  destruct (uuid_cells_coincide_iff sample_dataset "uuid" example_source 0 1
              {[ "document" := VStr (codepoints "This is a test document.") ]}
              {[ "document" := VStr (codepoints "Another test document.") ]}
              eq_refl eq_refl)
    as (ds' & x' & y' & s & t & H1 & H2 & H3 & H4 & H5 & Hiff).
  exists ds', x', y', s, t. repeat (split; [assumption|]).
  intros Heq. apply (proj1 Hiff) with (k := 4) in Heq; [|by compute_done].
  vm_compute in Heq. discriminate Heq.
Defined.
